(** * video-merger: subtitle timestamp offsetting and renumbering

    A shallow embedding of [video-merger.py] and the properties of its
    subtitle pipeline.

    Conventions of the embedding.
    - A Python [str] is a [string]; an [ascii] stands for the code point of
      the same number (0..255).  On that range the decimal digits of [\d]
      are '0'..'9' and the white space of [str.strip] is the set [is_space].
    - A Python number is a [pynum]: an unbounded [int] (a [Z]) or a [float]
      (an IEEE 754 binary64, Rocq's primitive [float]).
    - A Python exception is a [Raise] in the [result] type.  The
      interpreter's limit on the length of a string given to [int] is at
      its default, 4300 digits.  The numbers the program writes out (the
      count of the blocks, the fields of a time that was a float) have far
      fewer digits, and [str] and [format_0d] are total.
    - Files, the console and the external programs are explicit: a [world]
      is passed along, and ffprobe, ffmpeg and the directory listing are
      variables of the section that needs them. *)

From Stdlib Require Import ZArith List String Ascii Lia Bool.
From Stdlib Require Import DecimalString DecimalZ DecimalPos DecimalN DecimalFacts.
From Stdlib Require Import PrimFloat FloatOps SpecFloat.
From stdpp Require Import base option list strings gmap.

#[local] Set Warnings "-inexact-float".
#[local] Open Scope Z_scope.

(** ** Exceptions *)

Inductive exn : Type :=
  | OverflowError
  | ValueError
  | ZeroDivisionError
  | FileNotFoundError
  | CalledProcessError
  | SystemExit (code : Z).

Inductive result (A : Type) : Type :=
  | Ok (a : A)
  | Raise (e : exn).

Arguments Ok {A} a.
Arguments Raise {A} e.

Definition result_bind {A B} (m : result A) (k : A -> result B) : result B :=
  match m with
  | Ok a => k a
  | Raise e => Raise e
  end.

Notation "x <- m ;; k" := (result_bind m (fun x => k))
  (at level 100, m at next level, right associativity).

Definition raises {A} (m : result A) : Prop :=
  match m with Ok _ => False | Raise _ => True end.

(** ** Python strings *)

Module PyStr.

Definition newline : string := String (ascii_of_nat 10) EmptyString.

Definition is_digit (c : ascii) : bool :=
  let n := N_of_ascii c in ((48 <=? n) && (n <=? 57))%N.

(** White space of [str.strip()] among the code points below 256. *)
Definition is_space (c : ascii) : bool :=
  existsb (N.eqb (N_of_ascii c)) [9; 10; 11; 12; 13; 28; 29; 30; 31; 32; 133; 160]%N.

Fixpoint lstrip (s : string) : string :=
  match s with
  | String c s' => if is_space c then lstrip s' else s
  | EmptyString => EmptyString
  end.

Fixpoint rstrip (s : string) : string :=
  match s with
  | String c s' =>
      match rstrip s' with
      | EmptyString => if is_space c then EmptyString else String c EmptyString
      | r => String c r
      end
  | EmptyString => EmptyString
  end.

(** [s.strip()] *)
Definition strip (s : string) : string := rstrip (lstrip s).

(** [sub in s] *)
Fixpoint contains (sub s : string) : bool :=
  String.prefix sub s ||
  match s with
  | String _ s' => contains sub s'
  | EmptyString => false
  end.

(** [s.split(sep)] for a non-empty [sep]: the occurrences of [sep] are found
    from the left and do not overlap.  [skip] counts the characters of an
    occurrence that are still to be passed. *)
Fixpoint split_from (sep : string) (skip : nat) (s : string) : list string :=
  match s with
  | EmptyString => [EmptyString]
  | String c s' =>
      match skip with
      | S k => split_from sep k s'
      | O =>
          if String.prefix sep s
          then EmptyString :: split_from sep (Nat.pred (String.length sep)) s'
          else match split_from sep 0 s' with
               | piece :: pieces => String c piece :: pieces
               | [] => [String c EmptyString]
               end
      end
  end.

Definition split (sep s : string) : list string := split_from sep 0 s.

(** [sep.join(l)] *)
Fixpoint join (sep : string) (l : list string) : string :=
  match l with
  | [] => EmptyString
  | [x] => x
  | x :: l' => x +:+ sep +:+ join sep l'
  end.

(** [str(z)] *)
Definition str (z : Z) : string := NilZero.string_of_int (Z.to_int z).

(** The most digits that [int] takes from a string: the default of
    [sys.get_int_max_str_digits()]. *)
Definition int_max_str_digits : Z := 4300.

(** [int(s)]; the program only calls it on a group matched by [\d+].  A
    string of more digits than the limit raises, leading zeros counted. *)
Definition int (s : string) : result Z :=
  if int_max_str_digits <? Z.of_nat (String.length s) then Raise ValueError
  else match NilZero.uint_of_string s with
       | Some d => Ok (Z.of_uint d)
       | None => Raise ValueError
       end.

Fixpoint zeros (n : nat) : string :=
  match n with
  | O => EmptyString
  | S n' => String "0" (zeros n')
  end.

(** [f"{z:0{width}d}"]: the sign comes first and counts in the width. *)
Definition format_0d (width : nat) (z : Z) : string :=
  let sign := if z <? 0 then "-" else EmptyString in
  let digits := str (Z.abs z) in
  sign +:+ zeros (width - String.length sign - String.length digits) +:+ digits.

(** The longest run of digits at the head of [s], and what follows it. *)
Fixpoint span_digits (s : string) : string * string :=
  match s with
  | String c s' =>
      if is_digit c
      then let (d, r) := span_digits s' in (String c d, r)
      else (EmptyString, s)
  | EmptyString => (EmptyString, EmptyString)
  end.

(** [\d+] at the head of [s].  What follows a group in the pattern is never
    a digit, so the greedy match is the only one. *)
Definition re_digits (s : string) : option (string * string) :=
  match span_digits s with
  | (EmptyString, _) => None
  | (d, r) => Some (d, r)
  end.

Definition re_char (c : ascii) (s : string) : option string :=
  match s with
  | String c' r => if Ascii.eqb c c' then Some r else None
  | EmptyString => None
  end.

(** [re.match(r'(\d+):(\d+):(\d+),(\d+)', s)]: the four groups. *)
Definition re_match_time (s : string) : option (string * string * string * string) :=
  match re_digits s with
  | Some (h, r) =>
    match re_char ":" r with
    | Some r =>
      match re_digits r with
      | Some (m, r) =>
        match re_char ":" r with
        | Some r =>
          match re_digits r with
          | Some (sec, r) =>
            match re_char "," r with
            | Some r =>
              match re_digits r with
              | Some (ms, _) => Some (h, m, sec, ms)
              | None => None
              end
            | None => None
            end
          | None => None
          end
        | None => None
        end
      | None => None
      end
    | None => None
    end
  | None => None
  end.

End PyStr.

(** ** Python numbers *)

Module PyNum.

Inductive pynum : Type :=
  | PyInt (z : Z)
  | PyFloat (f : float).

Definition two53 : Z := 2 ^ 53.

(** An integer below 2^53 in magnitude is a float as it is. *)
Definition float_of_small (z : Z) : float :=
  let f := of_uint63 (Uint63Axioms.of_Z (Z.abs z)) in
  if z <? 0 then (- f)%float else f.

(** [float(z)] for an [int]: the nearest float, ties to even; an integer
    that rounds beyond the largest float raises. *)
Definition float_of_int (z : Z) : result float :=
  if Z.abs z <? two53 then Ok (float_of_small z)
  else match binary_normalize prec emax z 0 false with
       | S754_infinity _ => Raise OverflowError
       | sf => Ok (SF2Prim sf)
       end.

(** [a / b] for two [int]s: the float nearest to the quotient. *)
Definition int_true_div (a b : Z) : result float :=
  if b =? 0 then Raise ZeroDivisionError
  else if (Z.abs a <? two53) && (Z.abs b <? two53)
  then Ok (float_of_small a / float_of_small b)%float
  else match SFdiv prec emax (S754_finite (a <? 0) (Z.to_pos (Z.abs a)) 0)
                             (S754_finite (b <? 0) (Z.to_pos (Z.abs b)) 0) with
       | S754_infinity _ => Raise OverflowError
       | sf => Ok (SF2Prim sf)
       end.

(** [int(x)] for a [float]: towards zero. *)
Definition float_trunc (x : float) : result Z :=
  match Prim2SF x with
  | S754_nan => Raise ValueError
  | S754_infinity _ => Raise OverflowError
  | S754_zero _ => Ok 0
  | S754_finite s m e =>
      let a := Z.shiftl (Z.pos m) e in
      Ok (if s then - a else a)
  end.

(** C's [fmod(x, 1.0)]: the fractional part, which is a float, with the sign
    of [x]. *)
Definition fmod_one (x : float) : float :=
  match Prim2SF x with
  | S754_nan | S754_infinity _ => nan
  | S754_zero _ => x
  | S754_finite s m e =>
      if 0 <=? e then SF2Prim (S754_zero s)
      else let r := Z.pos m mod 2 ^ (- e) in
           SF2Prim (binary_normalize prec emax (if s then - r else r) e s)
  end.

(** [x % 1] for a [float]: a non-zero remainder takes the sign of the
    divisor, a zero one is [+0.0]. *)
Definition float_mod_one (x : float) : float :=
  let r := fmod_one x in
  if (r =? 0)%float then 0%float
  else if (r <? 0)%float then (r + 1)%float
  else r.

(** [a + b] *)
Definition add (a b : pynum) : result pynum :=
  match a, b with
  | PyInt x, PyInt y => Ok (PyInt (x + y))
  | PyInt x, PyFloat g => f <- float_of_int x ;; Ok (PyFloat (f + g))
  | PyFloat f, PyInt y => g <- float_of_int y ;; Ok (PyFloat (f + g))
  | PyFloat f, PyFloat g => Ok (PyFloat (f + g))
  end.

(** [a % 1] *)
Definition mod_one (a : pynum) : pynum :=
  match a with
  | PyInt x => PyInt (x mod 1)
  | PyFloat f => PyFloat (float_mod_one f)
  end.

(** [a * k] for an [int] literal [k] *)
Definition mul_int (a : pynum) (k : Z) : result pynum :=
  match a with
  | PyInt x => Ok (PyInt (x * k))
  | PyFloat f => g <- float_of_int k ;; Ok (PyFloat (f * g))
  end.

(** [int(a)] *)
Definition int (a : pynum) : result Z :=
  match a with
  | PyInt x => Ok x
  | PyFloat f => float_trunc f
  end.

(** [a == b], on the values the program compares or that a caller could. *)
Definition eqb (a b : pynum) : bool :=
  match a, b with
  | PyInt x, PyInt y => x =? y
  | PyInt x, PyFloat g =>
      match float_trunc g with
      | Ok y => (x =? y) && (fmod_one g =? 0)%float
      | Raise _ => false
      end
  | PyFloat f, PyInt y =>
      match float_trunc f with
      | Ok x => (x =? y) && (fmod_one f =? 0)%float
      | Raise _ => false
      end
  | PyFloat f, PyFloat g => (f =? g)%float
  end.

End PyNum.

Import PyNum.

(** ** The timestamp functions *)

(** [parse_srt_time]: seconds of a [HH:MM:SS,mmm] stamp, [0] without one. *)
Definition parse_srt_time (time_str : string) : result pynum :=
  match PyStr.re_match_time time_str with
  | Some (gh, gm, gs, gms) =>
      h <- PyStr.int gh ;;
      m <- PyStr.int gm ;;
      s <- PyStr.int gs ;;
      ms <- PyStr.int gms ;;
      q <- int_true_div ms 1000 ;;
      PyNum.add (PyInt (h * 3600 + m * 60 + s)) (PyFloat q)
  | None => Ok (PyInt 0)
  end.

(** [format_srt_time] *)
Definition format_srt_time (seconds : pynum) : result string :=
  p <- mul_int (mod_one seconds) 1000 ;;
  ms <- PyNum.int p ;;
  seconds <- PyNum.int seconds ;;
  let h := seconds / 3600 in
  let m := (seconds mod 3600) / 60 in
  let s := seconds mod 60 in
  Ok (PyStr.format_0d 2 h +:+ ":" +:+ PyStr.format_0d 2 m +:+ ":" +:+
      PyStr.format_0d 2 s +:+ "," +:+ PyStr.format_0d 3 ms).

(** The body of the loop of [offset_subtitle], for one line. *)
Definition offset_subtitle_line (offset_seconds : pynum) (line : string) : result string :=
  if PyStr.contains "-->" line then
    match PyStr.split " --> " line with
    | [part0; part1] =>
        start <- parse_srt_time part0 ;;
        end_ <- parse_srt_time part1 ;;
        shifted_start <- PyNum.add start offset_seconds ;;
        new_start <- format_srt_time shifted_start ;;
        shifted_end <- PyNum.add end_ offset_seconds ;;
        new_end <- format_srt_time shifted_end ;;
        Ok (new_start +:+ " --> " +:+ new_end)
    | _ => Ok line
    end
  else Ok line.

(** The loop of [offset_subtitle]: [acc] is the list [result] of the source,
    which grows by one entry per line. *)
Fixpoint offset_subtitle_loop (offset_seconds : pynum) (lines acc : list string)
  : result (list string) :=
  match lines with
  | [] => Ok acc
  | line :: lines' =>
      new_line <- offset_subtitle_line offset_seconds line ;;
      offset_subtitle_loop offset_seconds lines' (acc ++ [new_line])
  end.

(** [offset_subtitle] *)
Definition offset_subtitle (subtitle_content : string) (offset_seconds : pynum)
  : result string :=
  let lines := PyStr.split PyStr.newline (PyStr.strip subtitle_content) in
  new_lines <- offset_subtitle_loop offset_seconds lines [] ;;
  Ok (PyStr.join PyStr.newline new_lines).

(** ** Files, console and external programs *)

Record world : Type := World {
  files : gmap string string;   (* path to text *)
  stdout : list string          (* one entry per call of [print] *)
}.

Definition io (A : Type) : Type := world -> result A * world.

Definition io_ret {A} (a : A) : io A := fun w => (Ok a, w).

Definition io_bind {A B} (m : io A) (k : A -> io B) : io B :=
  fun w =>
    match m w with
    | (Ok a, w') => k a w'
    | (Raise e, w') => (Raise e, w')
    end.

Notation "x <~ m ;; k" := (io_bind m (fun x => k))
  (at level 100, m at next level, right associativity).

Definition lift {A} (m : result A) : io A := fun w => (m, w).

Definition raise {A} (e : exn) : io A := lift (Raise e).

Definition print (msg : string) : io unit :=
  fun w => (Ok tt, World (files w) (stdout w ++ [msg])).

(** [open(path, 'r').read()] *)
Definition read_file (path : string) : io string :=
  fun w =>
    match files w !! path with
    | Some text => (Ok text, w)
    | None => (Raise FileNotFoundError, w)
    end.

(** [open(path, 'w').write(text)] *)
Definition write_file (path text : string) : io unit :=
  fun w => (Ok tt, World (<[path := text]> (files w)) (stdout w)).

(** [os.remove(path)] *)
Definition remove_file (path : string) : io unit :=
  fun w =>
    match files w !! path with
    | Some _ => (Ok tt, World (delete path (files w)) (stdout w))
    | None => (Raise FileNotFoundError, w)
    end.

(** [os.path.join(a, b)] *)
Definition path_join (a b : string) : string :=
  if String.prefix "/" b then b
  else if String.eqb a EmptyString || String.prefix "/" (String.rev a) then a +:+ b
  else a +:+ "/" +:+ b.

(** The check mark of the progress messages, in UTF-8. *)
Definition check_mark : string :=
  String (ascii_of_nat 226) (String (ascii_of_nat 156) (String (ascii_of_nat 147) EmptyString)).

(** The exit status of the process for an outcome of [main]. *)
Definition exit_code (r : result unit) : Z :=
  match r with
  | Ok _ => 0
  | Raise (SystemExit code) => code
  | Raise _ => 1
  end.

(** The inner loop of [concatenate_subtitles]: the first line of each block
    becomes the counter. *)
Fixpoint renumber_loop (blocks combined_srt : list string) (subtitle_counter : Z)
  : list string * Z :=
  match blocks with
  | [] => (combined_srt, subtitle_counter)
  | block :: blocks' =>
      match PyStr.split PyStr.newline block with
      | _ :: block_lines =>
          renumber_loop blocks'
            (combined_srt ++ [PyStr.join PyStr.newline (PyStr.str subtitle_counter :: block_lines)])
            (subtitle_counter + 1)
      | [] => renumber_loop blocks' combined_srt subtitle_counter
      end
  end.

Definition blank_line : string := PyStr.newline +:+ PyStr.newline.

Section Program.

(** [get_video_duration]: what ffprobe reports for a file, as a float, or
    the exception of a failed probe. *)
Variable get_video_duration : string -> result float.

(** [find_video_parts] and [find_subtitle_parts]: the sorted matches of
    [{number}-*.mp4] and [{number}-*.srt] in a directory. *)
Variable find_video_parts : string -> string -> list string.
Variable find_subtitle_parts : string -> string -> list string.

(** [subprocess.run(cmd, check=True)] for ffmpeg: whether it succeeded, and
    the files as it left them, which on a failure too may differ from those
    it found. *)
Variable run_ffmpeg : list string -> gmap string string -> result unit * gmap string string.

(** [concatenate_videos] *)
Definition concatenate_videos (video_parts : list string) (output_path : string) : io unit :=
  let list_file := "concat_list.txt" in
  _ <~ write_file list_file
         (String.concat EmptyString
            (map (fun video => "file '" +:+ video +:+ "'" +:+ PyStr.newline) video_parts)) ;;
  let cmd := ["ffmpeg"; "-f"; "concat"; "-safe"; "0"; "-i"; list_file;
              "-c"; "copy"; output_path; "-y"] in
  _ <~ (fun w => let (r, fs) := run_ffmpeg cmd (files w) in (r, World fs (stdout w))) ;;
  _ <~ remove_file list_file ;;
  print (check_mark +:+ " Created " +:+ output_path).

(** The loop of [concatenate_subtitles] over [enumerate(zip(subtitle_parts,
    video_parts))]; [n_videos] is [len(video_parts)]. *)
Fixpoint segments_loop (n_videos : Z) (i : Z) (pairs : list (string * string))
    (combined_srt : list string) (subtitle_counter : Z) (current_offset : pynum)
  : io (list string) :=
  match pairs with
  | [] => io_ret combined_srt
  | (srt_file, video_file) :: pairs' =>
      content <~ read_file srt_file ;;
      content <~ (if 0 <? i then lift (offset_subtitle content current_offset)
                  else io_ret content) ;;
      let lines := PyStr.split blank_line (PyStr.strip content) in
      let '(combined_srt, subtitle_counter) :=
        renumber_loop lines combined_srt subtitle_counter in
      current_offset <~ (if i <? n_videos - 1
                         then duration <~ lift (get_video_duration video_file) ;;
                              lift (PyNum.add current_offset (PyFloat duration))
                         else io_ret current_offset) ;;
      segments_loop n_videos (i + 1) pairs' combined_srt subtitle_counter current_offset
  end.

(** [concatenate_subtitles] *)
Definition concatenate_subtitles (subtitle_parts video_parts : list string)
    (output_path : string) : io unit :=
  combined_srt <~ segments_loop (Z.of_nat (length video_parts)) 0
                    (combine subtitle_parts video_parts) [] 1 (PyInt 0) ;;
  _ <~ write_file output_path (PyStr.join blank_line combined_srt +:+ PyStr.newline) ;;
  print (check_mark +:+ " Created " +:+ output_path).

Fixpoint print_all (msgs : list string) : io unit :=
  match msgs with
  | [] => io_ret tt
  | msg :: msgs' => _ <~ print msg ;; print_all msgs'
  end.

(** [main], with [sys.argv] as its argument. *)
Definition main (argv : list string) : io unit :=
  match argv with
  | [] | [_] =>
      _ <~ print "Usage: python script.py <video_number>" ;;
      _ <~ print "Example: python script.py 0005" ;;
      raise (SystemExit 1)
  | _ :: video_number :: rest =>
      let directory := match rest with d :: _ => d | [] => "." end in
      let video_parts := find_video_parts video_number directory in
      let subtitle_parts := find_subtitle_parts video_number directory in
      match video_parts with
      | [] =>
          _ <~ print ("Error: No video parts found for " +:+ video_number) ;;
          raise (SystemExit 1)
      | _ =>
          _ <~ print ("Found " +:+ PyStr.str (Z.of_nat (length video_parts)) +:+ " video part(s):") ;;
          _ <~ print_all (map (fun v => "  - " +:+ v) video_parts) ;;
          let output_video := path_join directory (video_number +:+ ".mp4") in
          _ <~ print (PyStr.newline +:+ "Concatenating videos to " +:+ output_video +:+ "...") ;;
          _ <~ concatenate_videos video_parts output_video ;;
          _ <~ match subtitle_parts with
               | [] => print (PyStr.newline +:+ "No subtitle files found, skipping subtitle concatenation.")
               | _ =>
                   _ <~ print (PyStr.newline +:+ "Found " +:+ PyStr.str (Z.of_nat (length subtitle_parts))
                               +:+ " subtitle part(s):") ;;
                   _ <~ print_all (map (fun s => "  - " +:+ s) subtitle_parts) ;;
                   let output_subtitle := path_join directory (video_number +:+ ".srt") in
                   _ <~ print (PyStr.newline +:+ "Concatenating subtitles to " +:+ output_subtitle +:+ "...") ;;
                   concatenate_subtitles subtitle_parts video_parts output_subtitle
               end ;;
          print (PyStr.newline +:+ check_mark +:+ " Done!")
      end
  end.

End Program.

(** ** Vocabulary of the properties *)

Import PyStr.

Fixpoint all_chars (p : ascii -> bool) (s : string) : bool :=
  match s with
  | EmptyString => true
  | String c s' => p c && all_chars p s'
  end.

(** [c] does not occur in [s]. *)
Definition free_of (c : ascii) (s : string) : bool :=
  all_chars (fun c' => negb (Ascii.eqb c c')) s.

(** A separator of one character. *)
Definition sep1 (c : ascii) : string := String c EmptyString.

Definition sign_or_digit (c : ascii) : bool := is_digit c || Ascii.eqb c "-".

(** The characters of a rewritten timing line. *)
Definition time_char (c : ascii) : bool :=
  sign_or_digit c || Ascii.eqb c ":" || Ascii.eqb c "," || Ascii.eqb c " " || Ascii.eqb c ">".

(** A non-empty run of decimal digits. *)
Definition digit_run (s : string) : Prop :=
  s <> EmptyString /\ all_chars is_digit s = true.

Definition starts_with_digit (s : string) : bool :=
  match s with
  | String c _ => is_digit c
  | EmptyString => false
  end.

(** [s] begins with [digits:digits:digits,digits]: what the pattern of
    [parse_srt_time] accepts. *)
Definition matches_time (s : string) : Prop :=
  exists h m sec ms rest,
    s = h +:+ ":" +:+ m +:+ ":" +:+ sec +:+ "," +:+ ms +:+ rest /\
    digit_run h /\ digit_run m /\ digit_run sec /\ digit_run ms.

(** The number that a run of digits writes. *)
Definition decimal_value (s : string) : Z :=
  match NilEmpty.uint_of_string s with
  | Some d => Z.of_uint d
  | None => 0
  end.

(** A decimal numeral that begins with a digit other than 0. *)
Definition head_nonzero (d : Decimal.uint) : Prop :=
  match d with
  | Decimal.Nil | Decimal.D0 _ => False
  | _ => True
  end.

(** A run of digits that [int] takes: not longer than its limit. *)
Definition within_int_limit (s : string) : Prop :=
  Z.of_nat (String.length s) <= int_max_str_digits.

(** The seconds before the comma of a stamp with groups [h], [m], [sec]. *)
Definition whole_seconds (h m sec : string) : Z :=
  decimal_value h * 3600 + decimal_value m * 60 + decimal_value sec.

(** The lines that [offset_subtitle] goes through. *)
Definition stripped_lines (content : string) : list string :=
  split newline (strip content).

(** A line that [offset_subtitle] leaves alone: no arrow in it, or not two
    parts around [" --> "]. *)
Definition passes_through (line : string) : Prop :=
  contains "-->" line = false \/ length (split " --> " line) <> 2%nat.

(** A line and what [offset_subtitle] makes of it. *)
Inductive line_step (offset_seconds : pynum) : string -> string -> Prop :=
  | line_kept line :
      passes_through line ->
      line_step offset_seconds line line
  | line_shifted line part0 part1 start end_ shifted_start shifted_end new_start new_end :
      contains "-->" line = true ->
      split " --> " line = [part0; part1] ->
      parse_srt_time part0 = Ok start ->
      parse_srt_time part1 = Ok end_ ->
      PyNum.add start offset_seconds = Ok shifted_start ->
      format_srt_time shifted_start = Ok new_start ->
      PyNum.add end_ offset_seconds = Ok shifted_end ->
      format_srt_time shifted_end = Ok new_end ->
      line_step offset_seconds line (new_start +:+ " --> " +:+ new_end).

(** The blocks of a subtitle text. *)
Definition blocks_of (content : string) : list string :=
  split blank_line (strip content).

(** A block with its first line replaced by the number [n]. *)
Definition renumbered (n : Z) (block : string) : string :=
  join newline (str n :: tail (split newline block)).

(** The float sum of durations, from the left. *)
Definition sum_durations (durations : list float) : float :=
  fold_left PrimFloat.add durations 0%float.

(** The offset of the segment that comes after segments of the durations
    [earlier]: the [int] 0 for the first segment, the sum for the others. *)
Definition segment_offset (earlier : list float) : pynum :=
  match earlier with
  | [] => PyInt 0
  | _ => PyFloat (sum_durations earlier)
  end.

(** The text of a segment as it enters the merge: the first segment as it
    is, the others through [offset_subtitle]. *)
Definition shift_segment (earlier : list float) (content : string) : result string :=
  match earlier with
  | [] => Ok content
  | _ => offset_subtitle content (segment_offset earlier)
  end.

(** What the renumbering loops make of the texts of the segments. *)
Definition merge_from (contents : list string) (combined_srt : list string)
    (subtitle_counter : Z) : list string * Z :=
  fold_left (fun st content => renumber_loop (blocks_of content) (fst st) (snd st))
            contents (combined_srt, subtitle_counter).

(** The text of the merged subtitle file. *)
Definition merged_text (contents : list string) : string :=
  join blank_line (fst (merge_from contents [] 1)) +:+ newline.

(** The accumulator of offsets is the [int] 0 or a [float]. *)
Definition offset_ok (offset : pynum) : Prop :=
  match offset with
  | PyInt z => z = 0
  | PyFloat _ => True
  end.

Section Segments.

Variable get_video_duration : string -> result float.

(** [segments_shifted fs earlier pairs shifted]: every subtitle file of
    [pairs] is in [fs], every video of [pairs] has a reported duration, and
    [shifted] are the texts of the subtitle files, each moved by the sum of
    the durations of the segments before it; [earlier] are the durations of
    the segments before the first pair. *)
Inductive segments_shifted (fs : gmap string string)
  : list float -> list (string * string) -> list string -> Prop :=
  | shifted_nil earlier : segments_shifted fs earlier [] []
  | shifted_cons earlier srt_file video_file pairs content duration new_content shifted :
      fs !! srt_file = Some content ->
      get_video_duration video_file = Ok duration ->
      shift_segment earlier content = Ok new_content ->
      segments_shifted fs (earlier ++ [duration]) pairs shifted ->
      segments_shifted fs earlier ((srt_file, video_file) :: pairs) (new_content :: shifted).

End Segments.

(** The list file that [concatenate_videos] hands to ffmpeg. *)
Definition list_file_name : string := "concat_list.txt".

(** The text of the list file: one quoted path per line. *)
Definition manifest_text (video_parts : list string) : string :=
  String.concat EmptyString
    (map (fun video => "file '" +:+ video +:+ "'" +:+ newline) video_parts).

(** The command line of the ffmpeg call. *)
Definition ffmpeg_command (output_path : string) : list string :=
  ["ffmpeg"; "-f"; "concat"; "-safe"; "0"; "-i"; list_file_name;
   "-c"; "copy"; output_path; "-y"].

(** The directory that [main] works in. *)
Definition directory_of (rest : list string) : string :=
  match rest with
  | d :: _ => d
  | [] => "."
  end.

(** The progress lines of [main] up to the call of ffmpeg. *)
Definition video_messages (video_parts : list string) (output_video : string) : list string :=
  ["Found " +:+ str (Z.of_nat (length video_parts)) +:+ " video part(s):"] ++
  map (fun v => "  - " +:+ v) video_parts ++
  [newline +:+ "Concatenating videos to " +:+ output_video +:+ "..."].

(** ** Sample inputs *)

Module Example.

Definition nl : string := newline.

Definition block (number timing text : string) : string :=
  number +:+ nl +:+ timing +:+ nl +:+ text.

(** Three segments of durations 10.0, 20.0 and 15.0, one block each. *)
Definition files3 : gmap string string :=
  {[ "0005-1.srt" := block "1" "00:00:01,000 --> 00:00:02,000" "one" +:+ nl;
     "0005-2.srt" := block "1" "00:00:01,000 --> 00:00:02,000" "two" +:+ nl;
     "0005-3.srt" := block "1" "00:00:05,000 --> 00:00:07,000" "three" +:+ nl ]}.

Definition subtitles3 : list string := ["0005-1.srt"; "0005-2.srt"; "0005-3.srt"].
Definition videos3 : list string := ["0005-1.mp4"; "0005-2.mp4"; "0005-3.mp4"].

Definition durations3 (video : string) : result float :=
  if String.eqb video "0005-1.mp4" then Ok 10%float
  else if String.eqb video "0005-2.mp4" then Ok 20%float
  else if String.eqb video "0005-3.mp4" then Ok 15%float
  else Raise CalledProcessError.

Definition world3 : world := World files3 [].

(** Two segments of durations 60.0 and 45.0 with blocks numbered 1, 2 and
    1, 2, 3. *)
Definition files2 : gmap string string :=
  {[ "0005-1.srt" := block "1" "00:00:01,000 --> 00:00:02,000" "a" +:+ blank_line +:+
                     block "2" "00:00:03,000 --> 00:00:04,000" "b" +:+ nl;
     "0005-2.srt" := block "1" "00:00:05,000 --> 00:00:07,000" "c" +:+ blank_line +:+
                     block "2" "00:00:08,000 --> 00:00:09,000" "d" +:+ blank_line +:+
                     block "3" "00:00:10,000 --> 00:00:11,500" "e" +:+ nl ]}.

Definition subtitles2 : list string := ["0005-1.srt"; "0005-2.srt"].
Definition videos2 : list string := ["0005-1.mp4"; "0005-2.mp4"].

Definition durations2 (video : string) : result float :=
  if String.eqb video "0005-1.mp4" then Ok 60%float
  else if String.eqb video "0005-2.mp4" then Ok 45%float
  else Raise CalledProcessError.

Definition world2 : world := World files2 [].

(** A directory without media parts. *)
Definition no_parts (video_number directory : string) : list string := [].

Definition no_ffmpeg (cmd : list string) (fs : gmap string string)
  : result unit * gmap string string := (Raise FileNotFoundError, fs).

(** An ffmpeg that writes the text "merged" to its output path. *)
Definition merging_ffmpeg (cmd : list string) (fs : gmap string string)
  : result unit * gmap string string :=
  match nth_error cmd 9 with
  | Some output_path => (Ok tt, <[output_path := "merged"]> fs)
  | None => (Raise CalledProcessError, fs)
  end.

(** An ffmpeg that breaks off after it has begun to write its output. *)
Definition failing_ffmpeg (cmd : list string) (fs : gmap string string)
  : result unit * gmap string string :=
  match nth_error cmd 9 with
  | Some output_path => (Raise CalledProcessError, <[output_path := "mer"]> fs)
  | None => (Raise CalledProcessError, fs)
  end.

(** A probe that fails on every video. *)
Definition no_probe (video : string) : result float := Raise CalledProcessError.

(** A stamp whose milliseconds are beyond the floats: 1 and 400 zeros. *)
Definition huge_milliseconds : string := "0:00:00,1" +:+ zeros 400.

(** A stamp whose hours are 4301 zeros. *)
Definition long_stamp : string := zeros 4301 +:+ ":00:00,000".

(** A directory with the three videos and no subtitles. *)
Definition three_videos (video_number directory : string) : list string := videos3.

(** The probe of the three segments, failing on the last video. *)
Definition durations3_last_fails (video : string) : result float :=
  if String.eqb video "0005-3.mp4" then Raise CalledProcessError else durations3 video.

(** A stamp whose hours are beyond the floats: 1 and 310 zeros. *)
Definition huge_stamp : string := "1" +:+ zeros 310 +:+ ":00:00,000".

End Example.

(** ** Strings: splitting and joining at one character *)

Lemma prefix_empty s : String.prefix EmptyString s = true.
Proof. destruct s; reflexivity. Qed.

Lemma split_char_nonempty c s : split (sep1 c) s <> [].
Proof.
  unfold split, sep1. destruct s as [|a s]; simpl; [discriminate|].
  destruct (ascii_dec c a); [rewrite prefix_empty; discriminate|].
  destruct (split_from _ 0 s); discriminate.
Qed.

Lemma split_char_cons c a s :
  split (sep1 c) (String a s) =
    if Ascii.eqb c a then EmptyString :: split (sep1 c) s
    else match split (sep1 c) s with
         | piece :: pieces => String a piece :: pieces
         | [] => [String a EmptyString]
         end.
Proof.
  unfold split, sep1. simpl.
  destruct (ascii_dec c a) as [->|Hne].
  - rewrite prefix_empty, Ascii.eqb_refl. reflexivity.
  - apply Ascii.eqb_neq in Hne. rewrite Hne. reflexivity.
Qed.

Lemma join_cons2 sep x y l : join sep (x :: y :: l) = x +:+ sep +:+ join sep (y :: l).
Proof. reflexivity. Qed.

Lemma join_cons_head sep a p ps :
  join sep (String a p :: ps) = String a (join sep (p :: ps)).
Proof. destruct ps; reflexivity. Qed.

Lemma join_split_char c s : join (sep1 c) (split (sep1 c) s) = s.
Proof.
  induction s as [|a s IH]; [reflexivity|].
  rewrite split_char_cons.
  destruct (Ascii.eqb c a) eqn:E.
  - apply Ascii.eqb_eq in E. subst a.
    destruct (split (sep1 c) s) as [|p ps] eqn:Hs; [now apply split_char_nonempty in Hs|].
    rewrite join_cons2, IH. reflexivity.
  - destruct (split (sep1 c) s) as [|p ps] eqn:Hs; [now apply split_char_nonempty in Hs|].
    rewrite join_cons_head, IH. reflexivity.
Qed.

Lemma split_char_free c s : Forall (fun x => free_of c x = true) (split (sep1 c) s).
Proof.
  induction s as [|a s IH]; [repeat constructor|].
  rewrite split_char_cons.
  destruct (Ascii.eqb c a) eqn:E.
  - constructor; [reflexivity|exact IH].
  - destruct (split (sep1 c) s) as [|p ps] eqn:Hs; [now apply split_char_nonempty in Hs|].
    inversion IH; subst.
    constructor; [|assumption].
    unfold free_of in *. simpl. now rewrite E.
Qed.

Lemma split_char_app c x rest :
  free_of c x = true ->
  split (sep1 c) (x +:+ String c rest) = x :: split (sep1 c) rest.
Proof.
  induction x as [|a x IH]; intros Hx.
  - change (EmptyString +:+ String c rest) with (String c rest).
    rewrite split_char_cons, Ascii.eqb_refl. reflexivity.
  - unfold free_of in Hx. simpl in Hx. apply andb_true_iff in Hx as [Ha Hx].
    apply negb_true_iff in Ha.
    change (String a x +:+ String c rest) with (String a (x +:+ String c rest)).
    rewrite split_char_cons, Ha, IH by exact Hx. reflexivity.
Qed.

Lemma split_char_whole c x : free_of c x = true -> split (sep1 c) x = [x].
Proof.
  induction x as [|a x IH]; intros Hx; [reflexivity|].
  unfold free_of in Hx. simpl in Hx. apply andb_true_iff in Hx as [Ha Hx].
  apply negb_true_iff in Ha.
  rewrite split_char_cons, Ha, IH by exact Hx. reflexivity.
Qed.

Lemma split_join_char c ls :
  ls <> [] -> Forall (fun x => free_of c x = true) ls ->
  split (sep1 c) (join (sep1 c) ls) = ls.
Proof.
  induction ls as [|x ls IH]; intros Hne Hall; [congruence|].
  inversion Hall as [|? ? Hx Hls]; subst.
  destruct ls as [|y ls].
  - simpl. now apply split_char_whole.
  - rewrite join_cons2. unfold sep1 at 2.
    change (x +:+ String c EmptyString +:+ join (sep1 c) (y :: ls))
      with (x +:+ String c (join (sep1 c) (y :: ls))).
    rewrite split_char_app by exact Hx. f_equal. apply IH; [discriminate|assumption].
Qed.

(** ** The characters of a formatted stamp *)

Lemma all_chars_app p a b : all_chars p (a +:+ b) = all_chars p a && all_chars p b.
Proof. induction a as [|c a IH]; simpl; [reflexivity|]. now rewrite IH, andb_assoc. Qed.

Lemma all_chars_weaken (p q : ascii -> bool) s :
  (forall c, p c = true -> q c = true) -> all_chars p s = true -> all_chars q s = true.
Proof.
  intros Hpq. induction s as [|c s IH]; simpl; [reflexivity|].
  intros [Hc Hs]%andb_true_iff. rewrite (Hpq _ Hc). simpl. auto.
Qed.

Lemma string_of_uint_digits d : all_chars is_digit (NilEmpty.string_of_uint d) = true.
Proof. induction d; simpl; auto. Qed.

Lemma nilzero_string_of_uint_digits d : all_chars is_digit (NilZero.string_of_uint d) = true.
Proof. destruct d; try reflexivity; apply (string_of_uint_digits (_ _)). Qed.

Lemma str_nonneg_digits z : 0 <= z -> all_chars is_digit (str z) = true.
Proof.
  intros Hz. unfold str. destruct z as [|p|p]; [reflexivity| |lia].
  apply nilzero_string_of_uint_digits.
Qed.

Lemma zeros_digits n : all_chars is_digit (zeros n) = true.
Proof. induction n; simpl; auto. Qed.

Lemma format_0d_chars w z : all_chars sign_or_digit (format_0d w z) = true.
Proof.
  unfold format_0d. rewrite !all_chars_app.
  assert (Hd : forall s, all_chars is_digit s = true -> all_chars sign_or_digit s = true).
  { intros s. apply all_chars_weaken. intros c Hc. unfold sign_or_digit. now rewrite Hc. }
  rewrite (Hd (zeros _)) by apply zeros_digits.
  rewrite (Hd (str _)) by (apply str_nonneg_digits; lia).
  destruct (z <? 0); reflexivity.
Qed.

Lemma format_0d_digits w z : 0 <= z -> all_chars is_digit (format_0d w z) = true.
Proof.
  intros Hz. unfold format_0d. rewrite !all_chars_app.
  rewrite zeros_digits, str_nonneg_digits by lia.
  destruct (z <? 0) eqn:E; [lia|reflexivity].
Qed.

Lemma time_char_not_newline c : time_char c = true -> negb (Ascii.eqb (ascii_of_nat 10) c) = true.
Proof.
  intros H. destruct (Ascii.eqb (ascii_of_nat 10) c) eqn:E; [|reflexivity].
  apply Ascii.eqb_eq in E. subst c. discriminate H.
Qed.

Lemma format_srt_time_chars seconds out :
  format_srt_time seconds = Ok out -> all_chars time_char out = true.
Proof.
  unfold format_srt_time.
  destruct (mul_int _ _) as [p|]; [simpl|discriminate].
  destruct (PyNum.int p) as [ms|]; [simpl|discriminate].
  destruct (PyNum.int seconds) as [secs|]; [simpl|discriminate].
  intros [= <-]. rewrite !all_chars_app.
  assert (Hw : forall w z, all_chars time_char (format_0d w z) = true).
  { intros w z. eapply all_chars_weaken; [|apply format_0d_chars].
    intros c Hc. unfold time_char. now rewrite Hc. }
  rewrite !Hw. reflexivity.
Qed.

(** ** The pattern of [parse_srt_time] *)

Lemma append_assoc_str (a b c : string) : a +:+ b +:+ c = (a +:+ b) +:+ c.
Proof.
  induction a as [|x a IH]; [reflexivity|].
  change (String x (a +:+ b +:+ c) = String x ((a +:+ b) +:+ c)). now rewrite IH.
Qed.

Lemma span_digits_app d r :
  all_chars is_digit d = true -> starts_with_digit r = false ->
  span_digits (d +:+ r) = (d, r).
Proof.
  induction d as [|c d IH]; simpl; intros Hd Hr.
  - destruct r as [|c r]; [reflexivity|]. simpl in *. now rewrite Hr.
  - apply andb_true_iff in Hd as [Hc Hd]. rewrite Hc, IH by assumption. reflexivity.
Qed.

Lemma span_digits_spec s d r :
  span_digits s = (d, r) ->
  s = d +:+ r /\ all_chars is_digit d = true /\ starts_with_digit r = false.
Proof.
  revert d r. induction s as [|c s IH]; simpl; intros d r.
  - intros [= <- <-]. auto.
  - destruct (is_digit c) eqn:Hc.
    + destruct (span_digits s) as [d' r'] eqn:Hs. intros [= <- <-].
      destruct (IH _ _ eq_refl) as (-> & Hd & Hr). simpl. rewrite Hc. auto.
    + intros [= <- <-]. simpl. auto.
Qed.

Lemma span_digits_more d r :
  all_chars is_digit d = true ->
  exists d' r', span_digits (d +:+ r) = (d +:+ d', r') /\ r = d' +:+ r'.
Proof.
  intros Hd. destruct (span_digits r) as [d' r'] eqn:Hs.
  destruct (span_digits_spec _ _ _ Hs) as (-> & Hd' & Hr').
  exists d', r'. split; [|reflexivity].
  rewrite append_assoc_str. apply span_digits_app; [|exact Hr'].
  rewrite all_chars_app, Hd, Hd'. reflexivity.
Qed.

Lemma re_digits_app d r :
  digit_run d -> starts_with_digit r = false -> re_digits (d +:+ r) = Some (d, r).
Proof.
  intros [Hne Hd] Hr. unfold re_digits. rewrite span_digits_app by assumption.
  destruct d; [congruence|reflexivity].
Qed.

Lemma re_digits_spec s d r :
  re_digits s = Some (d, r) -> s = d +:+ r /\ digit_run d /\ starts_with_digit r = false.
Proof.
  unfold re_digits. destruct (span_digits s) as [d' r'] eqn:Hs.
  destruct (span_digits_spec _ _ _ Hs) as (-> & Hd & Hr).
  destruct d'; [discriminate|]. intros [= <- <-]. repeat split; auto; discriminate.
Qed.

Lemma re_char_spec c s r : re_char c s = Some r <-> s = String c r.
Proof.
  unfold re_char. destruct s as [|c' s]; [split; discriminate|].
  destruct (Ascii.eqb c c') eqn:E.
  - apply Ascii.eqb_eq in E. subst. split; congruence.
  - apply Ascii.eqb_neq in E. split; [discriminate|]. intros [= -> ->]. congruence.
Qed.

Lemma re_char_cons c r : re_char c (String c r) = Some r.
Proof. now apply re_char_spec. Qed.

(** The pattern finds its four groups: each is the longest run of digits at
    its place. *)
Lemma re_match_time_groups h m sec ms rest :
  digit_run h -> digit_run m -> digit_run sec -> digit_run ms ->
  starts_with_digit rest = false ->
  re_match_time (h +:+ ":" +:+ m +:+ ":" +:+ sec +:+ "," +:+ ms +:+ rest) = Some (h, m, sec, ms).
Proof.
  intros Hh Hm Hs Hms Hrest. unfold re_match_time.
  rewrite (re_digits_app h) by (assumption || reflexivity).
  change (":" +:+ ?x) with (String ":" x). rewrite re_char_cons.
  rewrite (re_digits_app m) by (assumption || reflexivity).
  change (":" +:+ ?x) with (String ":" x). rewrite re_char_cons.
  rewrite (re_digits_app sec) by (assumption || reflexivity).
  change ("," +:+ ?x) with (String "," x). rewrite re_char_cons.
  rewrite (re_digits_app ms) by assumption. reflexivity.
Qed.

Lemma re_match_time_spec s h m sec ms :
  re_match_time s = Some (h, m, sec, ms) ->
  exists rest, s = h +:+ ":" +:+ m +:+ ":" +:+ sec +:+ "," +:+ ms +:+ rest /\
    digit_run h /\ digit_run m /\ digit_run sec /\ digit_run ms /\
    starts_with_digit rest = false.
Proof.
  unfold re_match_time.
  destruct (re_digits s) as [[h' r1]|] eqn:H1; [|discriminate].
  destruct (re_char ":" r1) as [r2|] eqn:H2; [|discriminate].
  destruct (re_digits r2) as [[m' r3]|] eqn:H3; [|discriminate].
  destruct (re_char ":" r3) as [r4|] eqn:H4; [|discriminate].
  destruct (re_digits r4) as [[s' r5]|] eqn:H5; [|discriminate].
  destruct (re_char "," r5) as [r6|] eqn:H6; [|discriminate].
  destruct (re_digits r6) as [[ms' r7]|] eqn:H7; [|discriminate].
  intros [= <- <- <- <-].
  apply re_digits_spec in H1 as (-> & Hh & _), H3 as (-> & Hm & _),
    H5 as (-> & Hs & _), H7 as (-> & Hms & Hr).
  apply re_char_spec in H2 as ->, H4 as ->, H6 as ->.
  exists r7. repeat split; try apply Hh; try apply Hm; try apply Hs; try apply Hms; auto.
Qed.

Lemma matches_time_iff s : matches_time s <-> re_match_time s <> None.
Proof.
  split.
  - intros (h & m & sec & ms & rest & -> & Hh & Hm & Hs & Hms).
    destruct (span_digits_more ms rest (proj2 Hms)) as (d' & r' & Hspan & ->).
    apply span_digits_spec in Hspan as (_ & Hall & Hr').
    rewrite (append_assoc_str ms d' r').
    rewrite (re_match_time_groups h m sec (ms +:+ d') r'); try assumption; [discriminate|].
    split; [|exact Hall]. destruct ms; [now destruct Hms|discriminate].
  - destruct (re_match_time s) as [[[[h m] sec] ms]|] eqn:H; [|congruence].
    intros _. apply re_match_time_spec in H as (rest & -> & Hh & Hm & Hs & Hms & _).
    exists h, m, sec, ms, rest. auto.
Qed.

(** ** Decimal digits *)

Lemma uint_of_string_digits s :
  all_chars is_digit s = true -> exists d, NilEmpty.uint_of_string s = Some d.
Proof.
  induction s as [|c s IH]; simpl; [eauto|].
  intros [Hc Hs]%andb_true_iff. destruct (IH Hs) as [d ->].
  destruct c as [[] [] [] [] [] [] [] []]; try discriminate Hc; simpl; eauto.
Qed.

Lemma int_digit_run s :
  digit_run s -> within_int_limit s -> PyStr.int s = Ok (decimal_value s).
Proof.
  intros [Hne Hs] Hlen. unfold PyStr.int, decimal_value, NilZero.uint_of_string.
  unfold within_int_limit in Hlen.
  replace (int_max_str_digits <? Z.of_nat (String.length s)) with false
    by (symmetry; apply Z.ltb_ge; exact Hlen).
  destruct s as [|c s]; [congruence|].
  destruct (uint_of_string_digits _ Hs) as [d ->]. reflexivity.
Qed.

Lemma int_too_long s : ~ within_int_limit s -> PyStr.int s = Raise ValueError.
Proof.
  intros Hlen. unfold PyStr.int. unfold within_int_limit in Hlen.
  replace (int_max_str_digits <? Z.of_nat (String.length s)) with true
    by (symmetry; apply Z.ltb_lt; lia).
  reflexivity.
Qed.

Lemma within_int_limit_dec s : {within_int_limit s} + {~ within_int_limit s}.
Proof. apply Z_le_dec. Qed.

Lemma within_int_limit_short s : (String.length s <= 4300)%nat -> within_int_limit s.
Proof. unfold within_int_limit, int_max_str_digits. lia. Qed.

Lemma of_uint_bound d : (Pos.of_uint d < 10 ^ Unsigned.usize d)%N.
Proof.
  induction d; cbn [Unsigned.usize]; [reflexivity|..];
    rewrite Unsigned.of_uint_alt; unfold Decimal.rev; cbn [Decimal.revapp];
    rewrite Unsigned.of_lu_revapp; cbn [Unsigned.of_lu];
    fold (Decimal.rev d); rewrite <- Unsigned.of_uint_alt, N.pow_succ_r'; lia.
Qed.

Lemma uint_of_string_usize s d :
  NilEmpty.uint_of_string s = Some d -> Unsigned.usize d = N.of_nat (String.length s).
Proof.
  revert d. induction s as [|c s IH]; intros d; cbn [NilEmpty.uint_of_string].
  - intros [= <-]. reflexivity.
  - destruct (NilEmpty.uint_of_string s) as [d'|]; [|destruct c as [[] [] [] [] [] [] [] []]; discriminate].
    specialize (IH _ eq_refl). cbn [String.length]. rewrite Nat2N.inj_succ, <- IH.
    destruct c as [[] [] [] [] [] [] [] []]; cbn; try discriminate; intros [= <-]; reflexivity.
Qed.

Lemma decimal_value_bound s :
  0 <= decimal_value s < 10 ^ Z.of_nat (String.length s).
Proof.
  unfold decimal_value. destruct (NilEmpty.uint_of_string s) as [d|] eqn:Hd.
  - pose proof (of_uint_bound d) as Hb. rewrite (uint_of_string_usize _ _ Hd) in Hb.
    unfold Z.of_uint. split; [lia|].
    rewrite <- nat_N_Z, <- (N2Z.inj_pow 10). lia.
  - split; [lia|]. apply Z.pow_pos_nonneg; lia.
Qed.

(** ** [parse_srt_time] *)

Lemma parse_srt_time_no_match s : ~ matches_time s -> parse_srt_time s = Ok (PyInt 0).
Proof.
  intros Hno. unfold parse_srt_time.
  destruct (re_match_time s) as [[[[h m] sec] ms]|] eqn:H; [|reflexivity].
  contradict Hno. apply matches_time_iff. congruence.
Qed.

(** The stamp at the head of a string goes to [int] group by group. *)
Lemma parse_srt_time_ints h m sec ms rest :
  digit_run h -> digit_run m -> digit_run sec -> digit_run ms ->
  starts_with_digit rest = false ->
  parse_srt_time (h +:+ ":" +:+ m +:+ ":" +:+ sec +:+ "," +:+ ms +:+ rest) =
    (vh <- PyStr.int h ;;
     vm <- PyStr.int m ;;
     vs <- PyStr.int sec ;;
     vms <- PyStr.int ms ;;
     q <- int_true_div vms 1000 ;;
     PyNum.add (PyInt (vh * 3600 + vm * 60 + vs)) (PyFloat q)).
Proof.
  intros Hh Hm Hs Hms Hrest. unfold parse_srt_time.
  rewrite re_match_time_groups by assumption. reflexivity.
Qed.

Lemma parse_srt_time_groups h m sec ms rest :
  digit_run h -> digit_run m -> digit_run sec -> digit_run ms ->
  starts_with_digit rest = false ->
  within_int_limit h -> within_int_limit m -> within_int_limit sec -> within_int_limit ms ->
  parse_srt_time (h +:+ ":" +:+ m +:+ ":" +:+ sec +:+ "," +:+ ms +:+ rest) =
    (q <- int_true_div (decimal_value ms) 1000 ;;
     PyNum.add (PyInt (whole_seconds h m sec)) (PyFloat q)).
Proof.
  intros Hh Hm Hs Hms Hrest Lh Lm Ls Lms.
  rewrite parse_srt_time_ints by assumption.
  rewrite !int_digit_run by assumption. reflexivity.
Qed.

(** A run of digits beyond the limit of [int] makes the parser raise. *)
Lemma parse_srt_time_too_long h m sec ms rest :
  digit_run h -> digit_run m -> digit_run sec -> digit_run ms ->
  starts_with_digit rest = false ->
  ~ (within_int_limit h /\ within_int_limit m /\ within_int_limit sec /\ within_int_limit ms) ->
  parse_srt_time (h +:+ ":" +:+ m +:+ ":" +:+ sec +:+ "," +:+ ms +:+ rest) = Raise ValueError.
Proof.
  intros Hh Hm Hs Hms Hrest Hlong.
  rewrite parse_srt_time_ints by assumption.
  destruct (within_int_limit_dec h) as [Lh|Lh]; [|now rewrite (int_too_long h Lh)].
  rewrite (int_digit_run h Hh Lh). cbn [result_bind].
  destruct (within_int_limit_dec m) as [Lm|Lm]; [|now rewrite (int_too_long m Lm)].
  rewrite (int_digit_run m Hm Lm). cbn [result_bind].
  destruct (within_int_limit_dec sec) as [Ls|Ls]; [|now rewrite (int_too_long sec Ls)].
  rewrite (int_digit_run sec Hs Ls). cbn [result_bind].
  destruct (within_int_limit_dec ms) as [Lms|Lms]; [|now rewrite (int_too_long ms Lms)].
  tauto.
Qed.

Lemma int_true_div_1000 a :
  (exists q, int_true_div a 1000 = Ok q) \/ int_true_div a 1000 = Raise OverflowError.
Proof.
  unfold int_true_div. change (1000 =? 0) with false. cbv iota.
  destruct (_ && _); [eauto|].
  destruct (SFdiv _ _ _ _); eauto.
Qed.

Lemma float_of_int_cases z :
  (exists f, float_of_int z = Ok f) \/ float_of_int z = Raise OverflowError.
Proof.
  unfold float_of_int. destruct (_ <? _); [eauto|].
  destruct (binary_normalize _ _ _ _ _); eauto.
Qed.

Lemma float_of_int_small z : Z.abs z < two53 -> float_of_int z = Ok (float_of_small z).
Proof. intros H. unfold float_of_int. apply Z.ltb_lt in H. now rewrite H. Qed.

Lemma int_true_div_small a :
  Z.abs a < two53 -> int_true_div a 1000 = Ok (float_of_small a / 1000)%float.
Proof.
  intros H. unfold int_true_div. apply Z.ltb_lt in H. rewrite H. reflexivity.
Qed.

Lemma parse_srt_time_within h m sec ms rest :
  digit_run h -> digit_run m -> digit_run sec -> digit_run ms ->
  starts_with_digit rest = false ->
  within_int_limit h -> within_int_limit m -> within_int_limit sec -> within_int_limit ms ->
  let s := h +:+ ":" +:+ m +:+ ":" +:+ sec +:+ "," +:+ ms +:+ rest in
  (exists f, parse_srt_time s = Ok (PyFloat f)) \/ parse_srt_time s = Raise OverflowError.
Proof.
  intros Hh Hm Hs Hms Hr Lh Lm Ls Lms s. subst s.
  rewrite parse_srt_time_groups by assumption.
  destruct (int_true_div_1000 (decimal_value ms)) as [[q ->] | ->]; [simpl|now right].
  destruct (float_of_int_cases (whole_seconds h m sec)) as [[f Hf] | Hf];
    rewrite Hf; simpl; eauto.
Qed.

(** What the parser does with a string that has a stamp at its head. *)
Lemma parse_srt_time_match_cases s :
  matches_time s ->
  (exists f, parse_srt_time s = Ok (PyFloat f)) \/
  parse_srt_time s = Raise OverflowError \/ parse_srt_time s = Raise ValueError.
Proof.
  intros Hm. apply matches_time_iff in Hm.
  destruct (re_match_time s) as [[[[h m] sec] ms]|] eqn:H; [clear Hm|congruence].
  apply re_match_time_spec in H as (rest & -> & Hh & Hm & Hs & Hms & Hr).
  destruct (within_int_limit_dec h) as [Lh|Lh];
    [|right; right; apply parse_srt_time_too_long; tauto].
  destruct (within_int_limit_dec m) as [Lm|Lm];
    [|right; right; apply parse_srt_time_too_long; tauto].
  destruct (within_int_limit_dec sec) as [Ls|Ls];
    [|right; right; apply parse_srt_time_too_long; tauto].
  destruct (within_int_limit_dec ms) as [Lms|Lms];
    [|right; right; apply parse_srt_time_too_long; tauto].
  destruct (parse_srt_time_within h m sec ms rest) as [Hf | Ho]; auto.
Qed.

Lemma matches_time_dec s : {matches_time s} + {~ matches_time s}.
Proof.
  destruct (re_match_time s) as [g|] eqn:H.
  - left. apply matches_time_iff. congruence.
  - right. intros Hm. apply matches_time_iff in Hm. congruence.
Qed.

(** Claim C9, as the code has it.  A string without a stamp at its head
    parses to the [int] 0 and nothing is raised.  A string with a stamp at
    its head parses to a float, or raises: [OverflowError] when one of its
    numbers is beyond the floats, [ValueError] when one of its runs of
    digits is longer than [int] takes (4300 digits), and that is when it
    raises [ValueError].  It parses to a float whenever no run of digits in
    the stamp is longer than twelve. *)
Theorem parse_srt_time_total s :
  (~ matches_time s -> parse_srt_time s = Ok (PyInt 0)) /\
  (matches_time s ->
     (exists f, parse_srt_time s = Ok (PyFloat f)) \/
     parse_srt_time s = Raise OverflowError \/ parse_srt_time s = Raise ValueError) /\
  (forall h m sec ms rest,
     s = h +:+ ":" +:+ m +:+ ":" +:+ sec +:+ "," +:+ ms +:+ rest ->
     digit_run h -> digit_run m -> digit_run sec -> digit_run ms ->
     starts_with_digit rest = false ->
     (within_int_limit h /\ within_int_limit m /\ within_int_limit sec /\ within_int_limit ms ->
      (exists f, parse_srt_time s = Ok (PyFloat f)) \/ parse_srt_time s = Raise OverflowError) /\
     (~ (within_int_limit h /\ within_int_limit m /\ within_int_limit sec /\ within_int_limit ms) ->
      parse_srt_time s = Raise ValueError) /\
     ((String.length h <= 12)%nat -> (String.length m <= 12)%nat ->
      (String.length sec <= 12)%nat -> (String.length ms <= 12)%nat ->
      exists f, parse_srt_time s = Ok (PyFloat f))).
Proof.
  split; [apply parse_srt_time_no_match|]. split; [apply parse_srt_time_match_cases|].
  intros h m sec ms rest -> Hh Hm Hs Hms Hr. split; [|split].
  - intros (Lh & Lm & Ls & Lms). now apply parse_srt_time_within.
  - now apply parse_srt_time_too_long.
  - intros Lh Lm Ls Lms.
    rewrite parse_srt_time_groups by (assumption || (apply within_int_limit_short; lia)).
    assert (Hpow : forall x, (String.length x <= 12)%nat -> 0 <= decimal_value x < 10 ^ 12).
    { intros x Hx. pose proof (decimal_value_bound x) as [H0 H1]. split; [exact H0|].
      eapply Z.lt_le_trans; [exact H1|]. apply Z.pow_le_mono_r; lia. }
    pose proof (Hpow _ Lh). pose proof (Hpow _ Lm). pose proof (Hpow _ Ls). pose proof (Hpow _ Lms).
    assert (H53 : two53 = 9007199254740992) by reflexivity.
    assert (H12 : 10 ^ 12 = 1000000000000) by reflexivity.
    rewrite int_true_div_small by lia. simpl.
    rewrite float_of_int_small by (unfold whole_seconds; lia). simpl. eauto.
Qed.

Lemma parse_srt_time_total_witness :
  (~ matches_time "xyz" /\ parse_srt_time "xyz" = Ok (PyInt 0)) /\
  (exists f, parse_srt_time "00:00:05,001 " = Ok (PyFloat f)) /\
  (~ within_int_limit (zeros 4301) /\ parse_srt_time Example.long_stamp = Raise ValueError).
Proof.
  split; [|split].
  - assert (H : ~ matches_time "xyz").
    { intros Hm. apply matches_time_iff in Hm. apply Hm. reflexivity. }
    split; [exact H|]. exact (proj1 (parse_srt_time_total "xyz") H).
  - assert (H00 : digit_run "00") by (split; [discriminate|reflexivity]).
    assert (H05 : digit_run "05") by (split; [discriminate|reflexivity]).
    assert (H001 : digit_run "001") by (split; [discriminate|reflexivity]).
    pose proof (proj2 (proj2 (parse_srt_time_total "00:00:05,001 ")) "00" "00" "05" "001" " "
                  eq_refl H00 H00 H05 H001 eq_refl) as (_ & _ & Hshort).
    apply Hshort; simpl; lia.
  - assert (Hlong : ~ within_int_limit (zeros 4301)).
    { intros H. vm_compute in H. apply H. reflexivity. }
    split; [exact Hlong|].
    assert (Hzeros : digit_run (zeros 4301)) by (split; [discriminate|apply zeros_digits]).
    assert (H00 : digit_run "00") by (split; [discriminate|reflexivity]).
    assert (H000 : digit_run "000") by (split; [discriminate|reflexivity]).
    pose proof (proj2 (proj2 (parse_srt_time_total Example.long_stamp))
                  (zeros 4301) "00" "00" "000" EmptyString eq_refl Hzeros H00 H00 H000 eq_refl)
      as (_ & Hraise & _).
    apply Hraise. tauto.
Defined.

(** Claim C9 fails as it stands: a stamp whose hours are 1 followed by 310
    zeros raises [OverflowError]. *)
Lemma parse_srt_time_overflows : parse_srt_time Example.huge_stamp = Raise OverflowError.
Proof. vm_compute. reflexivity. Qed.

(** Claim C6, as the code has it.  A string with a stamp at its head, whose
    runs of digits are within the limit of [int] and whose whole seconds and
    milliseconds are below 2^53, parses to the float
    [whole seconds + milliseconds / 1000].  A string without one parses to
    the [int] 0, which is equal ([==]) to what the stamp 00:00:00,000 parses
    to.  The type of a returned value alone tells the two cases apart: a
    [float] comes from a string with a stamp, an [int] from one without. *)
Theorem parse_srt_time_value s :
  (forall h m sec ms rest,
     s = h +:+ ":" +:+ m +:+ ":" +:+ sec +:+ "," +:+ ms +:+ rest ->
     digit_run h -> digit_run m -> digit_run sec -> digit_run ms ->
     starts_with_digit rest = false ->
     within_int_limit h -> within_int_limit m -> within_int_limit sec -> within_int_limit ms ->
     whole_seconds h m sec < two53 -> decimal_value ms < two53 ->
     parse_srt_time s =
       Ok (PyFloat (float_of_small (whole_seconds h m sec) +
                    float_of_small (decimal_value ms) / 1000))) /\
  (~ matches_time s ->
     parse_srt_time s = Ok (PyInt 0) /\
     parse_srt_time "00:00:00,000" = Ok (PyFloat 0) /\
     PyNum.eqb (PyInt 0) (PyFloat 0) = true) /\
  (forall v, parse_srt_time s = Ok v ->
     (matches_time s -> exists f, v = PyFloat f) /\
     (~ matches_time s -> v = PyInt 0)).
Proof.
  split; [|split].
  - intros h m sec ms rest -> Hh Hm Hs Hms Hr Lh Lm Ls Lms Hw Hv.
    rewrite parse_srt_time_groups by assumption.
    pose proof (decimal_value_bound h). pose proof (decimal_value_bound m).
    pose proof (decimal_value_bound sec). pose proof (decimal_value_bound ms).
    rewrite int_true_div_small by lia. cbn [result_bind PyNum.add].
    rewrite float_of_int_small by (unfold whole_seconds in *; lia). reflexivity.
  - intros Hno. split; [now apply parse_srt_time_no_match|].
    split; vm_compute; reflexivity.
  - intros v Hv. split.
    + intros Hm. destruct (parse_srt_time_match_cases s Hm) as [[f Hf] | [Ho | Ho]];
        rewrite Hv in *; [injection Hf as ->; eauto|discriminate|discriminate].
    + intros Hno. rewrite (parse_srt_time_no_match s Hno) in Hv. now injection Hv as <-.
Qed.

Lemma parse_srt_time_value_witness :
  parse_srt_time "01:02:05,500" = Ok (PyFloat 3725.5) /\
  (~ matches_time "1:2:3" /\ parse_srt_time "1:2:3" = Ok (PyInt 0)).
Proof.
  split.
  - apply (proj1 (parse_srt_time_value "01:02:05,500") "01" "02" "05" "500" EmptyString);
      try reflexivity; try (apply within_int_limit_short; simpl; lia);
      split; try discriminate; reflexivity.
  - assert (H : ~ matches_time "1:2:3").
    { intros Hm. apply matches_time_iff in Hm. apply Hm. reflexivity. }
    split; [exact H|]. exact (proj1 (proj1 (proj2 (parse_srt_time_value "1:2:3")) H)).
Defined.

(** Claim C6 fails as it stands.  A string with a stamp at its head can
    raise instead of giving its time: the stamp with milliseconds of 1 and
    400 zeros does.  And a string without a stamp parses to 0, which is
    equal to what the stamp 00:00:00,000 parses to, and [offset_subtitle]
    treats the two alike. *)
Lemma parse_failure_is_time_zero :
  matches_time Example.huge_milliseconds /\
  parse_srt_time Example.huge_milliseconds = Raise OverflowError /\
  ~ matches_time "xyz" /\
  parse_srt_time "xyz" = Ok (PyInt 0) /\
  parse_srt_time "00:00:00,000" = Ok (PyFloat 0) /\
  PyNum.eqb (PyInt 0) (PyFloat 0) = true /\
  offset_subtitle "xyz --> abc" (PyFloat 10) = Ok "00:00:10,000 --> 00:00:10,000" /\
  offset_subtitle "00:00:00,000 --> 00:00:00,000" (PyFloat 10) = Ok "00:00:10,000 --> 00:00:10,000".
Proof.
  split; [apply matches_time_iff; vm_compute; discriminate|].
  split; [vm_compute; reflexivity|].
  split.
  { intros Hm. apply matches_time_iff in Hm. apply Hm. reflexivity. }
  repeat split; vm_compute; reflexivity.
Qed.

(** ** [format_srt_time] *)

Lemma length_append_str (a b : string) :
  String.length (a +:+ b) = (String.length a + String.length b)%nat.
Proof.
  induction a as [|c a IH]; [reflexivity|].
  change (S (String.length (a +:+ b)) = S (String.length a + String.length b)). now rewrite IH.
Qed.

Lemma length_zeros n : String.length (zeros n) = n.
Proof. induction n; simpl; auto. Qed.

Lemma str_nonempty z : str z <> EmptyString.
Proof.
  unfold str. destruct z as [|p|p]; simpl; try discriminate.
  unfold NilZero.string_of_uint. destruct (Pos.to_uint p); discriminate.
Qed.

Lemma format_0d_digit_run w z : 0 <= z -> digit_run (format_0d w z).
Proof.
  intros Hz. split; [|now apply format_0d_digits].
  unfold format_0d. destruct (z <? 0) eqn:E; [lia|].
  change (EmptyString +:+ ?x) with x.
  intros H. apply (f_equal String.length) in H. rewrite length_append_str in H.
  pose proof (str_nonempty (Z.abs z)) as Hne.
  destruct (str (Z.abs z)); [congruence|]. simpl in H. lia.
Qed.

Lemma format_0d_min_length w z : 0 <= z -> (w <= String.length (format_0d w z))%nat.
Proof.
  intros Hz. unfold format_0d. destruct (z <? 0) eqn:E; [lia|].
  change (EmptyString +:+ ?x) with x.
  rewrite length_append_str, length_zeros. simpl. lia.
Qed.

Lemma format_0d_length_small w bound z :
  forallb (fun n => Nat.eqb (String.length (format_0d w (Z.of_nat n))) w) (seq 0 bound) = true ->
  0 <= z < Z.of_nat bound -> String.length (format_0d w z) = w.
Proof.
  intros Hall Hz. rewrite forallb_forall in Hall.
  specialize (Hall (Z.to_nat z)). rewrite Z2Nat.id in Hall by lia.
  apply Nat.eqb_eq, Hall, in_seq. lia.
Qed.

Lemma format_0d_2_length z : 0 <= z < 100 -> String.length (format_0d 2 z) = 2%nat.
Proof. apply (format_0d_length_small 2 100). vm_compute. reflexivity. Qed.

Lemma format_0d_3_length z : 0 <= z < 1000 -> String.length (format_0d 3 z) = 3%nat.
Proof. apply (format_0d_length_small 3 1000). vm_compute. reflexivity. Qed.

Lemma decimal_value_zeros n s : decimal_value (zeros n +:+ s) = decimal_value s.
Proof.
  induction n as [|n IH]; [reflexivity|].
  rewrite <- IH. unfold decimal_value.
  change (zeros (S n) +:+ s) with (String "0" (zeros n +:+ s)).
  cbn [NilEmpty.uint_of_string]. destruct (NilEmpty.uint_of_string (zeros n +:+ s)); reflexivity.
Qed.

Lemma decimal_value_str z : 0 <= z -> decimal_value (str z) = z.
Proof.
  intros Hz. unfold str, decimal_value. destruct z as [|p|p]; [reflexivity| |lia].
  cbn [Z.to_int NilZero.string_of_int]. unfold NilZero.string_of_uint.
  pose proof (DecimalPos.Unsigned.to_uint_nonnil p) as Hne.
  destruct (Pos.to_uint p) as [|d|d|d|d|d|d|d|d|d|d] eqn:Hp; try congruence;
    rewrite <- Hp, NilEmpty.usu; unfold Z.of_uint; now rewrite DecimalPos.Unsigned.of_to.
Qed.

Lemma decimal_value_format_0d w z : 0 <= z -> decimal_value (format_0d w z) = z.
Proof.
  intros Hz. unfold format_0d. destruct (z <? 0) eqn:E; [lia|].
  change (EmptyString +:+ ?x) with x.
  rewrite decimal_value_zeros, decimal_value_str; lia.
Qed.

Lemma format_srt_time_float x T ms :
  float_trunc x = Ok T ->
  float_trunc (float_mod_one x * 1000) = Ok ms ->
  format_srt_time (PyFloat x) =
    Ok (format_0d 2 (T / 3600) +:+ ":" +:+ format_0d 2 (T mod 3600 / 60) +:+ ":" +:+
        format_0d 2 (T mod 60) +:+ "," +:+ format_0d 3 ms).
Proof.
  intros HT Hms. unfold format_srt_time. cbn [mod_one mul_int].
  change (float_of_int 1000) with (Ok 1000%float). cbn [result_bind PyNum.int].
  rewrite Hms. cbn [result_bind]. rewrite HT. reflexivity.
Qed.

(** Claim C4.  The formatter writes [HH:MM:SS,mmm] with zero padding: when
    [int(seconds)] is [T >= 0] and [int((seconds % 1) * 1000)] is
    [0 <= ms < 1000], the output is four runs of digits between [:], [:] and
    [,], of at least 2, of 2, of 2 and of 3 digits, which spell the
    truncated seconds [T] as hours, minutes and seconds, and [ms].  In
    particular 5.001 gives 00:00:05,001 and 3725.5 gives 01:02:05,500. *)
Theorem format_srt_time_zero_padded :
  (forall x T ms,
     float_trunc x = Ok T ->
     float_trunc (float_mod_one x * 1000) = Ok ms ->
     0 <= T -> 0 <= ms < 1000 ->
     exists hh mm ss mmm,
       format_srt_time (PyFloat x) = Ok (hh +:+ ":" +:+ mm +:+ ":" +:+ ss +:+ "," +:+ mmm) /\
       digit_run hh /\ digit_run mm /\ digit_run ss /\ digit_run mmm /\
       (2 <= String.length hh)%nat /\ String.length mm = 2%nat /\
       String.length ss = 2%nat /\ String.length mmm = 3%nat /\
       decimal_value hh * 3600 + decimal_value mm * 60 + decimal_value ss = T /\
       decimal_value mm < 60 /\ decimal_value ss < 60 /\
       decimal_value mmm = ms) /\
  format_srt_time (PyFloat 5.001) = Ok "00:00:05,001" /\
  format_srt_time (PyFloat 3725.5) = Ok "01:02:05,500".
Proof.
  split; [|split; vm_compute; reflexivity].
  intros x T ms HT Hms HT0 Hms0.
  exists (format_0d 2 (T / 3600)), (format_0d 2 (T mod 3600 / 60)),
         (format_0d 2 (T mod 60)), (format_0d 3 ms).
  assert (H1 : 0 <= T / 3600) by (apply Z.div_pos; lia).
  assert (H2 : 0 <= T mod 3600 / 60 < 60).
  { pose proof (Z.mod_pos_bound T 3600 ltac:(lia)).
    split; [apply Z.div_pos; lia|apply Z.div_lt_upper_bound; lia]. }
  assert (H3 : 0 <= T mod 60 < 60) by (apply Z.mod_pos_bound; lia).
  rewrite (format_srt_time_float x T ms HT Hms).
  rewrite !decimal_value_format_0d by lia.
  repeat split; try (apply format_0d_digit_run; lia); try lia.
  - now apply format_0d_min_length.
  - apply format_0d_2_length. lia.
  - apply format_0d_2_length. lia.
  - now apply format_0d_3_length.
  - pose proof (Z.div_mod T 3600 ltac:(lia)). pose proof (Z.div_mod (T mod 3600) 60 ltac:(lia)).
    pose proof (Z.mod_pos_bound (T mod 3600) 60 ltac:(lia)).
    assert (Hmm : (T mod 3600) mod 60 = T mod 60).
    { apply (Z.mod_unique T 60 (60 * (T / 3600) + T mod 3600 / 60)); [left|]; lia. }
    lia.
Qed.

Lemma format_srt_time_zero_padded_witness :
  float_trunc 3725.5 = Ok 3725 /\
  float_trunc (float_mod_one 3725.5 * 1000) = Ok 500 /\
  exists hh mm ss mmm,
    format_srt_time (PyFloat 3725.5) = Ok (hh +:+ ":" +:+ mm +:+ ":" +:+ ss +:+ "," +:+ mmm) /\
    digit_run hh /\ digit_run mm /\ digit_run ss /\ digit_run mmm /\
    (2 <= String.length hh)%nat /\ String.length mm = 2%nat /\
    String.length ss = 2%nat /\ String.length mmm = 3%nat /\
    decimal_value hh * 3600 + decimal_value mm * 60 + decimal_value ss = 3725 /\
    decimal_value mm < 60 /\ decimal_value ss < 60 /\
    decimal_value mmm = 500.
Proof.
  split; [vm_compute; reflexivity|]. split; [vm_compute; reflexivity|].
  apply (proj1 format_srt_time_zero_padded 3725.5%float 3725 500);
    [vm_compute; reflexivity|vm_compute; reflexivity|lia|lia].
Defined.

(** Claim C3.  The round trip loses a millisecond: 1.001, which is what
    00:00:01,001 parses to, is formatted as 00:00:01,000, which parses to
    1.0. *)
Theorem format_parse_round_trip_fails :
  parse_srt_time "00:00:01,001" = Ok (PyFloat 1.001) /\
  format_srt_time (PyFloat 1.001) = Ok "00:00:01,000" /\
  parse_srt_time "00:00:01,000" = Ok (PyFloat 1) /\
  (0.0009 <? 1.001 - 1)%float = true.
Proof. repeat split; vm_compute; reflexivity. Qed.

(** ** [offset_subtitle] *)

Lemma passes_through_line offset line :
  passes_through line -> offset_subtitle_line offset line = Ok line.
Proof.
  unfold passes_through, offset_subtitle_line. intros [-> | Hlen]; [reflexivity|].
  destruct (contains "-->" line); [|reflexivity].
  destruct (split " --> " line) as [|p0 [|p1 [|p2 ps]]]; try reflexivity.
  now contradict Hlen.
Qed.

Lemma offset_subtitle_line_step offset line out :
  offset_subtitle_line offset line = Ok out -> line_step offset line out.
Proof.
  unfold offset_subtitle_line.
  destruct (contains "-->" line) eqn:Hc.
  2:{ intros [= <-]. constructor. now left. }
  destruct (split " --> " line) as [|p0 [|p1 [|p2 ps]]] eqn:Hs;
    try (intros [= <-]; constructor; right; rewrite Hs; simpl; lia).
  destruct (parse_srt_time p0) as [a|] eqn:Ha; [simpl|discriminate].
  destruct (parse_srt_time p1) as [b|] eqn:Hb; [simpl|discriminate].
  destruct (PyNum.add a offset) as [a'|] eqn:Ha'; [simpl|discriminate].
  destruct (format_srt_time a') as [s|] eqn:Hfs; [simpl|discriminate].
  destruct (PyNum.add b offset) as [b'|] eqn:Hb'; [simpl|discriminate].
  destruct (format_srt_time b') as [e|] eqn:Hfe; [simpl|discriminate].
  intros [= <-]. econstructor; eassumption.
Qed.

Lemma line_step_offset_subtitle_line offset line out :
  line_step offset line out -> offset_subtitle_line offset line = Ok out.
Proof.
  intros [l Hp | l p0 p1 a b a' b' s e Hc Hs Ha Hb Ha' Hfs Hb' Hfe].
  - now apply passes_through_line.
  - unfold offset_subtitle_line. rewrite Hc, Hs, Ha. simpl. rewrite Hb. simpl.
    rewrite Ha'. simpl. rewrite Hfs. simpl. rewrite Hb'. simpl. rewrite Hfe. reflexivity.
Qed.

Lemma line_step_free offset line out :
  line_step offset line out -> free_of (ascii_of_nat 10) line = true ->
  free_of (ascii_of_nat 10) out = true.
Proof.
  intros [l Hp | l p0 p1 a b a' b' s e Hc Hs Ha Hb Ha' Hfs Hb' Hfe] Hfree; [exact Hfree|].
  unfold free_of. apply all_chars_weaken with (p := time_char); [apply time_char_not_newline|].
  rewrite !all_chars_app, (format_srt_time_chars _ _ Hfs), (format_srt_time_chars _ _ Hfe).
  reflexivity.
Qed.

(** The loop of [offset_subtitle] is a map that stops at the first exception. *)
Lemma offset_subtitle_loop_ok offset lines : forall acc out,
  offset_subtitle_loop offset lines acc = Ok out ->
  exists new_lines, out = acc ++ new_lines /\ Forall2 (line_step offset) lines new_lines.
Proof.
  induction lines as [|l lines IH]; intros acc out; simpl.
  - intros [= <-]. exists []. rewrite app_nil_r. split; [reflexivity|constructor].
  - destruct (offset_subtitle_line offset l) as [o|] eqn:Hl; [simpl|discriminate].
    intros Hloop. destruct (IH _ _ Hloop) as (rest & -> & Hall).
    exists (o :: rest). rewrite <- app_assoc. split; [reflexivity|].
    constructor; [now apply offset_subtitle_line_step|exact Hall].
Qed.

Lemma offset_subtitle_loop_steps offset lines new_lines : forall acc,
  Forall2 (line_step offset) lines new_lines ->
  offset_subtitle_loop offset lines acc = Ok (acc ++ new_lines).
Proof.
  intros acc H. revert acc. induction H as [|l o lines outs Hstep _ IH]; intros acc; simpl.
  - now rewrite app_nil_r.
  - rewrite (line_step_offset_subtitle_line _ _ _ Hstep). simpl.
    rewrite IH, <- app_assoc. reflexivity.
Qed.

Lemma offset_subtitle_loop_raise offset lines : forall acc e,
  offset_subtitle_loop offset lines acc = Raise e ->
  Exists (fun line => ~ passes_through line /\ offset_subtitle_line offset line = Raise e) lines.
Proof.
  induction lines as [|l lines IH]; intros acc e; simpl; [discriminate|].
  destruct (offset_subtitle_line offset l) as [o|e'] eqn:Hl; simpl.
  - intros H. right. eapply IH, H.
  - intros [= ->]. left. split; [|exact Hl].
    intros Hp. rewrite (passes_through_line _ _ Hp) in Hl. discriminate.
Qed.

Lemma newline_sep1 : newline = sep1 (ascii_of_nat 10).
Proof. reflexivity. Qed.

Lemma Forall2_line_step_free offset lines new_lines :
  Forall2 (line_step offset) lines new_lines ->
  Forall (fun x => free_of (ascii_of_nat 10) x = true) lines ->
  Forall (fun x => free_of (ascii_of_nat 10) x = true) new_lines.
Proof.
  induction 1 as [|l o lines outs Hstep _ IH]; intros Hall; [constructor|].
  inversion Hall; subst. constructor; [eapply line_step_free; eassumption|auto].
Qed.

(** Claim C10, as the code has it.  When [offset_subtitle] returns, its
    output has one line for each line of the stripped input, in the same
    order, and each is the input line as it was, or, for a line with an
    arrow and two parts around [" --> "], the two shifted stamps; the parts
    need not be stamps.  When it raises, it is on rewriting such a line. *)
Theorem offset_subtitle_line_structure content offset :
  match offset_subtitle content offset with
  | Ok out => Forall2 (line_step offset) (stripped_lines content) (split newline out)
  | Raise e =>
      Exists (fun line => ~ passes_through line /\ offset_subtitle_line offset line = Raise e)
             (stripped_lines content)
  end.
Proof.
  unfold offset_subtitle. fold (stripped_lines content).
  destruct (offset_subtitle_loop offset (stripped_lines content) []) as [outs|e] eqn:Hloop; simpl.
  - apply offset_subtitle_loop_ok in Hloop as (new_lines & -> & Hsteps). simpl.
    assert (Hfree : Forall (fun x => free_of (ascii_of_nat 10) x = true) new_lines).
    { eapply Forall2_line_step_free; [exact Hsteps|].
      unfold stripped_lines. rewrite newline_sep1. apply split_char_free. }
    rewrite newline_sep1, split_join_char; [exact Hsteps| |exact Hfree].
    intros ->. inversion Hsteps as [Hnil|]. symmetry in Hnil.
    unfold stripped_lines in Hnil. rewrite newline_sep1 in Hnil.
    now apply split_char_nonempty in Hnil.
  - eapply offset_subtitle_loop_raise, Hloop.
Qed.

Lemma offset_subtitle_ok_steps content offset out :
  offset_subtitle content offset = Ok out ->
  Forall2 (line_step offset) (stripped_lines content) (split newline out).
Proof.
  unfold offset_subtitle. fold (stripped_lines content).
  destruct (offset_subtitle_loop offset (stripped_lines content) []) as [outs|e] eqn:Hloop;
    [|discriminate].
  cbn [result_bind]. intros [= <-].
  apply offset_subtitle_loop_ok in Hloop as (new_lines & -> & Hsteps). cbn [app].
  assert (Hfree : Forall (fun x => free_of (ascii_of_nat 10) x = true) new_lines).
  { eapply Forall2_line_step_free; [exact Hsteps|].
    unfold stripped_lines. rewrite newline_sep1. apply split_char_free. }
  rewrite newline_sep1, split_join_char; [exact Hsteps| |exact Hfree].
  intros ->. inversion Hsteps as [Hnil|]. symmetry in Hnil.
  unfold stripped_lines in Hnil. rewrite newline_sep1 in Hnil.
  now apply split_char_nonempty in Hnil.
Qed.

Lemma offset_subtitle_raise_line content offset e :
  offset_subtitle content offset = Raise e ->
  Exists (fun line => ~ passes_through line /\ offset_subtitle_line offset line = Raise e)
         (stripped_lines content).
Proof.
  unfold offset_subtitle. fold (stripped_lines content).
  destruct (offset_subtitle_loop offset (stripped_lines content) []) as [outs|e'] eqn:Hloop;
    [discriminate|].
  cbn [result_bind]. intros [= <-]. eapply offset_subtitle_loop_raise, Hloop.
Qed.

Lemma offset_subtitle_all_pass content offset :
  Forall passes_through (stripped_lines content) ->
  offset_subtitle content offset = Ok (strip content).
Proof.
  intros Hall. unfold offset_subtitle. fold (stripped_lines content).
  rewrite (offset_subtitle_loop_steps offset _ (stripped_lines content)).
  - simpl. unfold stripped_lines. rewrite newline_sep1, join_split_char. reflexivity.
  - induction Hall; constructor; [now constructor|assumption].
Qed.

(** A line of two parts without stamps is rewritten from the time 0. *)
Lemma offset_subtitle_line_stampless offset line part0 part1 :
  contains "-->" line = true ->
  split " --> " line = [part0; part1] ->
  ~ matches_time part0 -> ~ matches_time part1 ->
  offset_subtitle_line offset line =
    (shifted <- PyNum.add (PyInt 0) offset ;;
     stamp <- format_srt_time shifted ;;
     Ok (stamp +:+ " --> " +:+ stamp)).
Proof.
  intros Hc Hs H0 H1. unfold offset_subtitle_line.
  rewrite Hc, Hs, (parse_srt_time_no_match _ H0), (parse_srt_time_no_match _ H1).
  cbn [result_bind].
  destruct (PyNum.add (PyInt 0) offset) as [shifted|]; [|reflexivity]. cbn [result_bind].
  destruct (format_srt_time shifted); reflexivity.
Qed.

(** Claim C5, as the code has it.  In every text and for every offset, a
    line of the stripped text that has no arrow, or not two parts around
    [" --> "], comes out unchanged at its place whenever [offset_subtitle]
    returns, and no such line makes it raise: it raises on a line that is
    rewritten, and a text of such lines alone comes out as it went in,
    stripped.  A line of two parts is rewritten whether or not its parts
    hold stamps: it comes out as the two shifted stamps, a part without a
    stamp counting as the time 0, and when rewriting it raises,
    [offset_subtitle] raises.  With no stamp in either part the line
    becomes the stamp of [0 + offset], twice, and with an offset that is
    not a number, or is infinite, rewriting it raises [ValueError]. *)
Theorem offset_subtitle_malformed_lines content offset :
  (forall i line,
     stripped_lines content !! i = Some line -> passes_through line ->
     match offset_subtitle content offset with
     | Ok out => split newline out !! i = Some line
     | Raise e =>
         Exists (fun l => ~ passes_through l /\ offset_subtitle_line offset l = Raise e)
                (stripped_lines content)
     end) /\
  (Forall passes_through (stripped_lines content) ->
   offset_subtitle content offset = Ok (strip content)) /\
  (forall i line part0 part1,
     stripped_lines content !! i = Some line ->
     contains "-->" line = true -> split " --> " line = [part0; part1] ->
     match offset_subtitle content offset with
     | Ok out =>
         exists start end_ shifted_start shifted_end new_start new_end,
           parse_srt_time part0 = Ok start /\ parse_srt_time part1 = Ok end_ /\
           (~ matches_time part0 -> start = PyInt 0) /\
           (~ matches_time part1 -> end_ = PyInt 0) /\
           PyNum.add start offset = Ok shifted_start /\
           format_srt_time shifted_start = Ok new_start /\
           PyNum.add end_ offset = Ok shifted_end /\
           format_srt_time shifted_end = Ok new_end /\
           split newline out !! i = Some (new_start +:+ " --> " +:+ new_end)
     | Raise _ => True
     end /\
     (forall e, offset_subtitle_line offset line = Raise e ->
                exists e', offset_subtitle content offset = Raise e') /\
     (~ matches_time part0 -> ~ matches_time part1 ->
      offset_subtitle_line offset line =
        (shifted <- PyNum.add (PyInt 0) offset ;;
         stamp <- format_srt_time shifted ;;
         Ok (stamp +:+ " --> " +:+ stamp)) /\
      (In offset [PyFloat nan; PyFloat infinity; PyFloat neg_infinity] ->
       offset_subtitle_line offset line = Raise ValueError /\
       exists e', offset_subtitle content offset = Raise e'))).
Proof.
  split; [|split].
  - intros i line Hi Hpass.
    destruct (offset_subtitle content offset) as [out|e] eqn:Hout.
    + apply offset_subtitle_ok_steps in Hout.
      destruct (Forall2_lookup_l _ _ _ _ _ Hout Hi) as (o & Ho & Hstep).
      apply line_step_offset_subtitle_line in Hstep.
      rewrite (passes_through_line offset line Hpass) in Hstep. now injection Hstep as <-.
    + now apply offset_subtitle_raise_line.
  - apply offset_subtitle_all_pass.
  - intros i line part0 part1 Hi Hc Hs.
    assert (Hraise : forall e, offset_subtitle_line offset line = Raise e ->
                               exists e', offset_subtitle content offset = Raise e').
    { intros e He.
      destruct (offset_subtitle content offset) as [out|e'] eqn:Hout; [|eauto].
      apply offset_subtitle_ok_steps in Hout.
      destruct (Forall2_lookup_l _ _ _ _ _ Hout Hi) as (o & Ho & Hstep).
      apply line_step_offset_subtitle_line in Hstep. congruence. }
    split; [|split; [exact Hraise|]].
    + destruct (offset_subtitle content offset) as [out|e] eqn:Hout; [|exact I].
      apply offset_subtitle_ok_steps in Hout.
      destruct (Forall2_lookup_l _ _ _ _ _ Hout Hi) as (o & Ho & Hstep).
      inversion Hstep as [l Hpass|l p0 p1 start end_ s1 s2 n1 n2 Hc' Hs' Hp0 Hp1 Ha1 Hf1 Ha2 Hf2];
        subst.
      * destruct Hpass as [Hno | Hlen]; [congruence|]. rewrite Hs in Hlen. now contradict Hlen.
      * rewrite Hs in Hs'. injection Hs' as <- <-.
        exists start, end_, s1, s2, n1, n2.
        repeat split; try assumption.
        -- intros Hno. rewrite (parse_srt_time_no_match _ Hno) in Hp0. now injection Hp0 as <-.
        -- intros Hno. rewrite (parse_srt_time_no_match _ Hno) in Hp1. now injection Hp1 as <-.
    + intros H0 H1.
      pose proof (offset_subtitle_line_stampless offset line part0 part1 Hc Hs H0 H1) as Hline.
      split; [exact Hline|]. intros Hin.
      assert (Hbad : offset_subtitle_line offset line = Raise ValueError).
      { rewrite Hline. cbn [In] in Hin.
        destruct Hin as [<-|[<-|[<-|[]]]]; vm_compute; reflexivity. }
      split; [exact Hbad|]. exact (Hraise _ Hbad).
Qed.

Lemma offset_subtitle_malformed_lines_witness :
  (stripped_lines ("7" +:+ newline +:+ "00:00:05,000 --> 00:00:07,000" +:+ newline +:+ "a-->b")
     !! 2%nat = Some "a-->b" /\
   passes_through "a-->b" /\
   offset_subtitle ("7" +:+ newline +:+ "00:00:05,000 --> 00:00:07,000" +:+ newline +:+ "a-->b")
                   (PyFloat 60) =
     Ok ("7" +:+ newline +:+ "00:01:05,000 --> 00:01:07,000" +:+ newline +:+ "a-->b") /\
   split newline ("7" +:+ newline +:+ "00:01:05,000 --> 00:01:07,000" +:+ newline +:+ "a-->b")
     !! 2%nat = Some "a-->b") /\
  (stripped_lines "a --> b" !! 0%nat = Some "a --> b" /\
   contains "-->" "a --> b" = true /\ split " --> " "a --> b" = ["a"; "b"] /\
   ~ matches_time "a" /\ ~ matches_time "b" /\
   offset_subtitle_line (PyFloat 1.5) "a --> b" = Ok "00:00:01,500 --> 00:00:01,500").
Proof.
  split.
  - assert (Hi : stripped_lines
                   ("7" +:+ newline +:+ "00:00:05,000 --> 00:00:07,000" +:+ newline +:+ "a-->b")
                 !! 2%nat = Some "a-->b") by (vm_compute; reflexivity).
    assert (Hpass : passes_through "a-->b") by (right; vm_compute; discriminate).
    assert (Hout : offset_subtitle
                     ("7" +:+ newline +:+ "00:00:05,000 --> 00:00:07,000" +:+ newline +:+ "a-->b")
                     (PyFloat 60) =
                   Ok ("7" +:+ newline +:+ "00:01:05,000 --> 00:01:07,000" +:+ newline +:+ "a-->b"))
      by (vm_compute; reflexivity).
    split; [exact Hi|]. split; [exact Hpass|]. split; [exact Hout|].
    pose proof (proj1 (offset_subtitle_malformed_lines _ (PyFloat 60)) 2%nat "a-->b" Hi Hpass) as H.
    rewrite Hout in H. exact H.
  - assert (Hi : stripped_lines "a --> b" !! 0%nat = Some "a --> b") by (vm_compute; reflexivity).
    assert (Hc : contains "-->" "a --> b" = true) by (vm_compute; reflexivity).
    assert (Hs : split " --> " "a --> b" = ["a"; "b"]) by (vm_compute; reflexivity).
    assert (Ha : ~ matches_time "a").
    { intros Hm. apply matches_time_iff in Hm. apply Hm. reflexivity. }
    assert (Hb : ~ matches_time "b").
    { intros Hm. apply matches_time_iff in Hm. apply Hm. reflexivity. }
    split; [exact Hi|]. split; [exact Hc|]. split; [exact Hs|].
    split; [exact Ha|]. split; [exact Hb|].
    pose proof (proj1 (proj2 (proj2 (proj2 (proj2 (offset_subtitle_malformed_lines
                                                     "a --> b" (PyFloat 1.5)))
                                       0%nat "a --> b" "a" "b" Hi Hc Hs)) Ha Hb)) as H.
    rewrite H. vm_compute. reflexivity.
Defined.

(** Claim C5 fails as it stands: the line [a --> b] holds no stamp, and it
    is rewritten; with an offset that is not a number it raises. *)
Lemma malformed_arrow_line_rewritten :
  ~ matches_time "a" /\ ~ matches_time "b" /\
  offset_subtitle "a --> b" (PyFloat 1.5) = Ok "00:00:01,500 --> 00:00:01,500" /\
  offset_subtitle "a --> b" (PyFloat nan) = Raise ValueError.
Proof.
  split; [|split].
  - intros Hm. apply matches_time_iff in Hm. apply Hm. reflexivity.
  - intros Hm. apply matches_time_iff in Hm. apply Hm. reflexivity.
  - split; vm_compute; reflexivity.
Qed.

(** Claim C10 fails as it stands: of the two lines of [foo --> bar] and
    [text], the first holds no stamp and is rewritten. *)
Lemma stampless_line_rewritten :
  ~ matches_time "foo" /\ ~ matches_time "bar" /\
  offset_subtitle ("foo --> bar" +:+ newline +:+ "text") (PyFloat 10) =
    Ok ("00:00:10,000 --> 00:00:10,000" +:+ newline +:+ "text").
Proof.
  split; [|split].
  - intros Hm. apply matches_time_iff in Hm. apply Hm. reflexivity.
  - intros Hm. apply matches_time_iff in Hm. apply Hm. reflexivity.
  - vm_compute. reflexivity.
Qed.

(** ** [concatenate_subtitles] *)

Section Merge.

Variable get_video_duration : string -> result float.

Lemma renumber_loop_spec blocks : forall combined counter,
  renumber_loop blocks combined counter =
    (combined ++ imap (fun k block => renumbered (counter + Z.of_nat k) block) blocks,
     counter + Z.of_nat (length blocks)).
Proof.
  induction blocks as [|b blocks IH]; intros combined counter; simpl.
  - rewrite app_nil_r. f_equal. lia.
  - destruct (split newline b) as [|l ls] eqn:Hs.
    { rewrite newline_sep1 in Hs. now apply split_char_nonempty in Hs. }
    rewrite IH, <- app_assoc. cbn [imap app length].
    replace (counter + 1 + Z.of_nat (length blocks))
      with (counter + Z.of_nat (S (length blocks))) by (clear; lia).
    do 3 f_equal.
    + unfold renumbered. rewrite Hs. cbn [tail]. now rewrite Z.add_0_r.
    + apply imap_ext. intros k x _. unfold compose. f_equal. clear. lia.
Qed.

Lemma merge_from_spec contents : forall combined counter,
  merge_from contents combined counter =
    (combined ++ imap (fun k block => renumbered (counter + Z.of_nat k) block)
                      (concat (map blocks_of contents)),
     counter + Z.of_nat (length (concat (map blocks_of contents)))).
Proof.
  unfold merge_from.
  induction contents as [|c contents IH]; intros combined counter; simpl.
  - rewrite app_nil_r. f_equal. lia.
  - rewrite renumber_loop_spec, IH, <- app_assoc, imap_app, length_app. clear IH.
    f_equal; [|lia].
    do 2 f_equal. apply imap_ext. intros k x _. cbv beta. f_equal. lia.
Qed.

Lemma add_segment_offset earlier duration :
  PyNum.add (segment_offset earlier) (PyFloat duration) = Ok (segment_offset (earlier ++ [duration])).
Proof.
  destruct earlier as [|d ds]; [reflexivity|].
  simpl. unfold sum_durations. simpl. rewrite fold_left_app. reflexivity.
Qed.

Lemma segments_loop_cons n_videos i srt_file video_file pairs combined counter offset w :
  segments_loop get_video_duration n_videos i ((srt_file, video_file) :: pairs)
                combined counter offset w =
  match files w !! srt_file with
  | None => (Raise FileNotFoundError, w)
  | Some content =>
      match (if 0 <? i then offset_subtitle content offset else Ok content) with
      | Raise e => (Raise e, w)
      | Ok content =>
          let st := renumber_loop (blocks_of content) combined counter in
          match (if i <? n_videos - 1
                 then duration <- get_video_duration video_file ;;
                      PyNum.add offset (PyFloat duration)
                 else Ok offset) with
          | Raise e => (Raise e, w)
          | Ok offset => segments_loop get_video_duration n_videos (i + 1) pairs (fst st) (snd st) offset w
          end
      end
  end.
Proof.
  cbn [segments_loop]. unfold io_bind at 1, read_file.
  destruct (files w !! srt_file) as [content|]; [|reflexivity].
  unfold io_bind at 1.
  destruct (0 <? i).
  - unfold lift at 1. destruct (offset_subtitle content offset) as [c'|]; [|reflexivity].
    unfold blocks_of. destruct (renumber_loop _ combined counter) as [cs n]. simpl.
    unfold io_bind at 1. destruct (i <? n_videos - 1); [|reflexivity].
    unfold io_bind, lift. destruct (get_video_duration video_file); [simpl|reflexivity].
    destruct (PyNum.add offset _); reflexivity.
  - unfold io_ret at 1.
    unfold blocks_of. destruct (renumber_loop _ combined counter) as [cs n]. simpl.
    unfold io_bind at 1. destruct (i <? n_videos - 1); [|reflexivity].
    unfold io_bind, lift. destruct (get_video_duration video_file); [simpl|reflexivity].
    destruct (PyNum.add offset _); reflexivity.
Qed.

Lemma segments_loop_shifted pairs : forall earlier shifted n_videos combined counter w,
  segments_shifted get_video_duration (files w) earlier pairs shifted ->
  Z.of_nat (length earlier) + Z.of_nat (length pairs) <= n_videos ->
  segments_loop get_video_duration n_videos (Z.of_nat (length earlier)) pairs
                combined counter (segment_offset earlier) w =
    (Ok (fst (merge_from shifted combined counter)), w).
Proof.
  induction pairs as [|[srt video] pairs IH]; intros earlier shifted nv combined counter w Hs Hlen.
  - inversion Hs; subst. reflexivity.
  - inversion Hs as [|? ? ? ? content d c' shifted' Hread Hprobe Hshift Hrest]; subst.
    rewrite segments_loop_cons, Hread.
    assert (Hc : (if 0 <? Z.of_nat (length earlier) then offset_subtitle content (segment_offset earlier)
                  else Ok content) = Ok c').
    { destruct earlier; [exact Hshift|]. exact Hshift. }
    rewrite Hc. cbv zeta.
    unfold merge_from. cbn [fold_left fst snd].
    destruct (renumber_loop (blocks_of c') combined counter) as [cs n] eqn:Hr. cbn [fst snd].
    destruct (Z.of_nat (length earlier) <? nv - 1) eqn:Hi.
    + rewrite Hprobe. cbn [result_bind]. rewrite add_segment_offset.
      replace (Z.of_nat (length earlier) + 1) with (Z.of_nat (length (earlier ++ [d])))
        by (rewrite length_app; simpl; lia).
      apply IH; [exact Hrest|]. rewrite length_app. simpl in *. lia.
    + apply Z.ltb_ge in Hi. simpl in Hlen.
      destruct pairs as [|p pairs]; [|simpl in Hlen; lia].
      inversion Hrest; subst. reflexivity.
Qed.

Lemma concatenate_subtitles_run subs vids out w shifted :
  segments_shifted get_video_duration (files w) [] (combine subs vids) shifted ->
  concatenate_subtitles get_video_duration subs vids out w =
    (Ok tt, World (<[out := merged_text shifted]> (files w))
                  (stdout w ++ [check_mark +:+ " Created " +:+ out])).
Proof.
  intros Hs. unfold concatenate_subtitles, io_bind.
  change 0 with (Z.of_nat (length (@nil float))).
  change (PyInt (Z.of_nat (length (@nil float)))) with (segment_offset []).
  rewrite (segments_loop_shifted _ _ _ _ _ _ _ Hs); [reflexivity|].
  rewrite length_combine. simpl. lia.
Qed.

Lemma add_offset_ok offset duration :
  offset_ok offset ->
  exists f, PyNum.add offset (PyFloat duration) = Ok (PyFloat f).
Proof. destruct offset as [z|f]; simpl; [intros ->|]; eauto. Qed.

Lemma segments_loop_n_videos pairs : forall i combined counter offset w n_videos,
  offset_ok offset ->
  i + Z.of_nat (length pairs) <= n_videos ->
  (i + Z.of_nat (length pairs) < n_videos ->
   forall p, last pairs = Some p -> exists d, get_video_duration (snd p) = Ok d) ->
  segments_loop get_video_duration n_videos i pairs combined counter offset w =
  segments_loop get_video_duration (i + Z.of_nat (length pairs)) i pairs combined counter offset w.
Proof.
  induction pairs as [|[srt video] pairs IH]; intros i combined counter offset w nv Hok Hlen Hlast;
    [reflexivity|].
  rewrite !segments_loop_cons.
  destruct (files w !! srt) as [content|]; [|reflexivity].
  destruct (if 0 <? i then _ else _) as [c'|]; [|reflexivity]. cbv zeta.
  destruct pairs as [|p pairs].
  - cbn [length] in *.
    replace (i <? i + Z.of_nat 1 - 1) with false by (symmetry; apply Z.ltb_ge; lia).
    destruct (i <? nv - 1) eqn:Hi; [|reflexivity].
    apply Z.ltb_lt in Hi.
    destruct (Hlast ltac:(lia) (srt, video) eq_refl) as [d Hd]. simpl in Hd. rewrite Hd.
    cbn [result_bind]. destruct (add_offset_ok offset d Hok) as [f ->]. reflexivity.
  - assert (Hi : (i <? nv - 1) = true) by (apply Z.ltb_lt; cbn [length] in Hlen; lia).
    assert (Hi' : (i <? i + Z.of_nat (length ((srt, video) :: p :: pairs)) - 1) = true)
      by (apply Z.ltb_lt; cbn [length]; lia).
    rewrite Hi, Hi'.
    destruct (get_video_duration video) as [d|]; [|reflexivity]. cbn [result_bind].
    destruct (add_offset_ok offset d Hok) as [f ->].
    replace (i + Z.of_nat (length ((srt, video) :: p :: pairs)))
      with (i + 1 + Z.of_nat (length (p :: pairs))) by (cbn [length]; lia).
    apply IH; [exact I|cbn [length] in *; lia|].
    intros Hlt q Hq. apply Hlast; [cbn [length] in *; lia|exact Hq].
Qed.

Lemma combine_take {A B} (n : nat) (l : list A) (k : list B) :
  (length l `min` length k <= n)%nat -> combine (take n l) (take n k) = combine l k.
Proof.
  revert l k. induction n as [|n IH]; intros [|a l] [|b k]; simpl; intros H; try reflexivity; try lia.
  f_equal. apply IH. lia.
Qed.

Lemma segments_loop_last_probe_fails pairs : forall i combined counter offset w n_videos p e r w',
  offset_ok offset ->
  i + Z.of_nat (length pairs) < n_videos ->
  last pairs = Some p -> get_video_duration (snd p) = Raise e ->
  segments_loop get_video_duration (i + Z.of_nat (length pairs)) i pairs combined counter offset w =
    (Ok r, w') ->
  segments_loop get_video_duration n_videos i pairs combined counter offset w = (Raise e, w).
Proof.
  induction pairs as [|[srt video] pairs IH];
    intros i combined counter offset w nv p e r w' Hok Hlen Hlast Hprobe Hrun; [discriminate|].
  rewrite segments_loop_cons in Hrun. rewrite segments_loop_cons.
  destruct (files w !! srt) as [content|]; [|discriminate].
  destruct (if 0 <? i then _ else _) as [c'|]; [|discriminate]. cbv zeta in Hrun. cbv zeta.
  destruct pairs as [|q pairs].
  - injection Hlast as <-. cbn [length] in Hlen. cbn [snd] in Hprobe.
    replace (i <? nv - 1) with true by (symmetry; apply Z.ltb_lt; lia).
    rewrite Hprobe. reflexivity.
  - assert (Hi : (i <? nv - 1) = true) by (apply Z.ltb_lt; cbn [length] in Hlen; lia).
    assert (Hi' : (i <? i + Z.of_nat (length ((srt, video) :: q :: pairs)) - 1) = true)
      by (apply Z.ltb_lt; cbn [length]; lia).
    rewrite Hi' in Hrun. rewrite Hi.
    destruct (get_video_duration video) as [d|]; [|discriminate].
    cbn [result_bind] in Hrun. cbn [result_bind].
    destruct (add_offset_ok offset d Hok) as [f Hf]. rewrite Hf in Hrun. rewrite Hf.
    replace (i + Z.of_nat (length ((srt, video) :: q :: pairs)))
      with (i + 1 + Z.of_nat (length (q :: pairs))) in Hrun by (cbn [length]; lia).
    apply (IH (i + 1) _ _ (PyFloat f) w nv p e r w'); [exact I|cbn [length] in *; lia|exact Hlast|exact Hprobe|exact Hrun].
Qed.

Lemma concatenate_subtitles_cut subs vids out w :
  let n := (length subs `min` length vids)%nat in
  ((n < length vids)%nat ->
   forall p, last (combine subs vids) = Some p -> exists d, get_video_duration (snd p) = Ok d) ->
  concatenate_subtitles get_video_duration subs vids out w =
  concatenate_subtitles get_video_duration (take n subs) (take n vids) out w.
Proof.
  intros n Hlast. unfold concatenate_subtitles.
  rewrite combine_take by reflexivity.
  assert (Hn : length (combine subs vids) = n) by apply length_combine.
  replace (Z.of_nat (length (take n vids))) with (0 + Z.of_nat (length (combine subs vids)))
    by (rewrite length_take, Hn; lia).
  unfold io_bind at 1 3.
  rewrite (segments_loop_n_videos (combine subs vids) 0 [] 1 (PyInt 0) w (Z.of_nat (length vids)));
    [reflexivity|reflexivity|rewrite Hn; lia|].
  rewrite Hn. intros Hlt. apply Hlast. lia.
Qed.

(** Claim C7, as the code has it.  The lengths of the two lists are not
    compared.  With [n] the shorter length, the merge pairs the first [n]
    subtitles with the first [n] videos and writes exactly what these
    pairs give; parts beyond [n] are not read.  When no video is in excess
    the merge is the merge of the two lists cut to [n], whatever the
    probes answer.  When videos are in excess the last paired video is
    probed as well: the merge is the merge of the cut lists when that probe
    answers, and when it fails the merge raises its exception and writes
    nothing, although the merge of the cut lists returns. *)
Theorem concatenate_subtitles_truncates subs vids out w :
  let n := (length subs `min` length vids)%nat in
  (forall shifted,
     segments_shifted get_video_duration (files w) []
                      (combine (take n subs) (take n vids)) shifted ->
     concatenate_subtitles get_video_duration subs vids out w =
       (Ok tt, World (<[out := merged_text shifted]> (files w))
                     (stdout w ++ [check_mark +:+ " Created " +:+ out]))) /\
  ((length vids <= length subs)%nat ->
   concatenate_subtitles get_video_duration subs vids out w =
   concatenate_subtitles get_video_duration (take n subs) (take n vids) out w) /\
  (((n < length vids)%nat ->
    forall p, last (combine subs vids) = Some p -> exists d, get_video_duration (snd p) = Ok d) ->
   concatenate_subtitles get_video_duration subs vids out w =
   concatenate_subtitles get_video_duration (take n subs) (take n vids) out w) /\
  ((n < length vids)%nat ->
   forall p e w',
     last (combine subs vids) = Some p -> get_video_duration (snd p) = Raise e ->
     concatenate_subtitles get_video_duration (take n subs) (take n vids) out w = (Ok tt, w') ->
     concatenate_subtitles get_video_duration subs vids out w = (Raise e, w)).
Proof.
  intros n. split; [|split; [|split]].
  - intros shifted Hs. rewrite combine_take in Hs by reflexivity.
    now apply concatenate_subtitles_run.
  - intros Hle. apply concatenate_subtitles_cut. fold n. intros Hlt. unfold n in Hlt. lia.
  - apply concatenate_subtitles_cut.
  - intros Hlt p e w' Hlast Hprobe Hcut.
    assert (Hn : length (combine subs vids) = n) by apply length_combine.
    unfold concatenate_subtitles in Hcut. rewrite combine_take in Hcut by reflexivity.
    replace (Z.of_nat (length (take n vids))) with (0 + Z.of_nat (length (combine subs vids)))
      in Hcut by (rewrite length_take, Hn; lia).
    unfold io_bind at 1 in Hcut.
    destruct (segments_loop get_video_duration (0 + Z.of_nat (length (combine subs vids))) 0
                (combine subs vids) [] 1 (PyInt 0) w) as [[r|e'] w0] eqn:Hrun; [|discriminate].
    unfold concatenate_subtitles, io_bind at 1.
    assert (Hlen : 0 + Z.of_nat (length (combine subs vids)) < Z.of_nat (length vids))
      by (rewrite Hn; lia).
    rewrite (segments_loop_last_probe_fails (combine subs vids) 0 [] 1 (PyInt 0) w
               (Z.of_nat (length vids)) p e r w0 eq_refl Hlen Hlast Hprobe Hrun).
    reflexivity.
Qed.

Lemma str_free_of_newline n : free_of (ascii_of_nat 10) (str n) = true.
Proof.
  unfold free_of. apply all_chars_weaken with (p := time_char); [apply time_char_not_newline|].
  apply all_chars_weaken with (p := sign_or_digit).
  { intros c Hc. unfold time_char. now rewrite Hc. }
  unfold str. destruct n as [|p|p]; [reflexivity| |].
  - apply all_chars_weaken with (p := is_digit).
    { intros c Hc. unfold sign_or_digit. now rewrite Hc. }
    apply nilzero_string_of_uint_digits.
  - cbn [Z.to_int NilZero.string_of_int all_chars]. apply andb_true_iff. split; [reflexivity|].
    apply all_chars_weaken with (p := is_digit).
    { intros c Hc. unfold sign_or_digit. now rewrite Hc. }
    apply nilzero_string_of_uint_digits.
Qed.

Lemma split_renumbered n block :
  split newline (renumbered n block) = str n :: tail (split newline block).
Proof.
  unfold renumbered. rewrite newline_sep1. apply split_join_char; [discriminate|].
  constructor; [apply str_free_of_newline|].
  pose proof (split_char_free (ascii_of_nat 10) block) as Hall.
  destruct (split (sep1 (ascii_of_nat 10)) block) as [|l ls]; [constructor|].
  now inversion Hall.
Qed.

(** Claim C1.  The merge shifts every segment by the sum of the reported
    durations of the segments before it, and the first segment not at all:
    with [shifted] the texts so shifted, the merge writes their renumbered
    blocks to the output file and reports it.  For durations 10.0, 20.0 and
    15.0 the offsets of the three segments are 0, 10.0 and 30.0. *)
Theorem concatenate_subtitles_offsets subs vids out w shifted :
  segments_shifted get_video_duration (files w) [] (combine subs vids) shifted ->
  concatenate_subtitles get_video_duration subs vids out w =
    (Ok tt, World (<[out := merged_text shifted]> (files w))
                  (stdout w ++ [check_mark +:+ " Created " +:+ out])) /\
  map segment_offset [[]; [10]; [10; 20]]%float = [PyInt 0; PyFloat 10; PyFloat 30].
Proof.
  intros Hs. split; [now apply concatenate_subtitles_run|].
  vm_compute. reflexivity.
Qed.

(** Claim C2.  The merged file holds the blocks of all segments, in the
    order of the segments and of the blocks in each, and the first line of
    the block at place [k] (from 0) is the number [k + 1]; the other lines
    of the block are kept. *)
Theorem concatenate_subtitles_renumbers subs vids out w shifted :
  segments_shifted get_video_duration (files w) [] (combine subs vids) shifted ->
  let blocks := concat (map blocks_of shifted) in
  (exists w',
     concatenate_subtitles get_video_duration subs vids out w = (Ok tt, w') /\
     files w' !! out =
       Some (join blank_line (imap (fun k block => renumbered (Z.of_nat k + 1) block) blocks)
             +:+ newline)) /\
  (forall k block,
     split newline (renumbered (Z.of_nat k + 1) block) =
       str (Z.of_nat k + 1) :: tail (split newline block)).
Proof.
  intros Hs blocks. split; [|intros; apply split_renumbered].
  eexists. split; [apply (concatenate_subtitles_run _ _ _ _ _ Hs)|].
  cbn [files]. rewrite lookup_insert_eq. unfold merged_text.
  rewrite merge_from_spec. cbn [fst app]. do 3 f_equal.
  apply imap_ext. intros k x _. cbv beta. f_equal. lia.
Qed.

End Merge.

Lemma concatenate_subtitles_offsets_witness :
  segments_shifted Example.durations3 Example.files3 []
    (combine Example.subtitles3 Example.videos3)
    [Example.block "1" "00:00:01,000 --> 00:00:02,000" "one" +:+ newline;
     Example.block "1" "00:00:11,000 --> 00:00:12,000" "two";
     Example.block "1" "00:00:35,000 --> 00:00:37,000" "three"] /\
  concatenate_subtitles Example.durations3 Example.subtitles3 Example.videos3 "0005.srt"
    Example.world3 =
    (Ok tt,
     World (<["0005.srt" :=
               Example.block "1" "00:00:01,000 --> 00:00:02,000" "one" +:+ blank_line +:+
               Example.block "2" "00:00:11,000 --> 00:00:12,000" "two" +:+ blank_line +:+
               Example.block "3" "00:00:35,000 --> 00:00:37,000" "three" +:+ newline]>
              Example.files3)
           [check_mark +:+ " Created 0005.srt"]).
Proof.
  assert (H : segments_shifted Example.durations3 Example.files3 []
                (combine Example.subtitles3 Example.videos3)
                [Example.block "1" "00:00:01,000 --> 00:00:02,000" "one" +:+ newline;
                 Example.block "1" "00:00:11,000 --> 00:00:12,000" "two";
                 Example.block "1" "00:00:35,000 --> 00:00:37,000" "three"]).
  { repeat (econstructor; [vm_compute; reflexivity ..|]). constructor. }
  split; [exact H|].
  exact (proj1 (concatenate_subtitles_offsets Example.durations3 Example.subtitles3
                  Example.videos3 "0005.srt" Example.world3 _ H)).
Defined.

Lemma concatenate_subtitles_renumbers_witness :
  segments_shifted Example.durations2 Example.files2 []
    (combine Example.subtitles2 Example.videos2)
    [Example.block "1" "00:00:01,000 --> 00:00:02,000" "a" +:+ blank_line +:+
     Example.block "2" "00:00:03,000 --> 00:00:04,000" "b" +:+ newline;
     Example.block "1" "00:01:05,000 --> 00:01:07,000" "c" +:+ blank_line +:+
     Example.block "2" "00:01:08,000 --> 00:01:09,000" "d" +:+ blank_line +:+
     Example.block "3" "00:01:10,000 --> 00:01:11,500" "e"] /\
  exists w',
    concatenate_subtitles Example.durations2 Example.subtitles2 Example.videos2 "0005.srt"
      Example.world2 = (Ok tt, w') /\
    files w' !! "0005.srt" =
      Some (Example.block "1" "00:00:01,000 --> 00:00:02,000" "a" +:+ blank_line +:+
            Example.block "2" "00:00:03,000 --> 00:00:04,000" "b" +:+ blank_line +:+
            Example.block "3" "00:01:05,000 --> 00:01:07,000" "c" +:+ blank_line +:+
            Example.block "4" "00:01:08,000 --> 00:01:09,000" "d" +:+ blank_line +:+
            Example.block "5" "00:01:10,000 --> 00:01:11,500" "e" +:+ newline).
Proof.
  assert (H : segments_shifted Example.durations2 Example.files2 []
                (combine Example.subtitles2 Example.videos2)
                [Example.block "1" "00:00:01,000 --> 00:00:02,000" "a" +:+ blank_line +:+
                 Example.block "2" "00:00:03,000 --> 00:00:04,000" "b" +:+ newline;
                 Example.block "1" "00:01:05,000 --> 00:01:07,000" "c" +:+ blank_line +:+
                 Example.block "2" "00:01:08,000 --> 00:01:09,000" "d" +:+ blank_line +:+
                 Example.block "3" "00:01:10,000 --> 00:01:11,500" "e"]).
  { repeat (econstructor; [vm_compute; reflexivity ..|]). constructor. }
  split; [exact H|].
  exact (proj1 (concatenate_subtitles_renumbers Example.durations2 Example.subtitles2
                  Example.videos2 "0005.srt" Example.world2 _ H)).
Defined.

Lemma concatenate_subtitles_truncates_witness :
  segments_shifted Example.durations3 Example.files3 []
    (combine (take 2 ["0005-1.srt"; "0005-2.srt"]) (take 2 Example.videos3))
    [Example.block "1" "00:00:01,000 --> 00:00:02,000" "one" +:+ newline;
     Example.block "1" "00:00:11,000 --> 00:00:12,000" "two"] /\
  concatenate_subtitles Example.durations3 ["0005-1.srt"; "0005-2.srt"] Example.videos3
    "0005.srt" Example.world3 =
    (Ok tt,
     World (<["0005.srt" :=
               Example.block "1" "00:00:01,000 --> 00:00:02,000" "one" +:+ blank_line +:+
               Example.block "2" "00:00:11,000 --> 00:00:12,000" "two" +:+ newline]>
              Example.files3)
           [check_mark +:+ " Created 0005.srt"]) /\
  concatenate_subtitles Example.durations3 ["0005-1.srt"; "0005-2.srt"] Example.videos3
    "0005.srt" Example.world3 =
  concatenate_subtitles Example.durations3 ["0005-1.srt"; "0005-2.srt"]
    ["0005-1.mp4"; "0005-2.mp4"] "0005.srt" Example.world3.
Proof.
  assert (H : segments_shifted Example.durations3 Example.files3 []
                (combine (take 2 ["0005-1.srt"; "0005-2.srt"]) (take 2 Example.videos3))
                [Example.block "1" "00:00:01,000 --> 00:00:02,000" "one" +:+ newline;
                 Example.block "1" "00:00:11,000 --> 00:00:12,000" "two"]).
  { repeat (econstructor; [vm_compute; reflexivity ..|]). constructor. }
  split; [exact H|]. split.
  - exact (proj1 (concatenate_subtitles_truncates Example.durations3
                    ["0005-1.srt"; "0005-2.srt"] Example.videos3 "0005.srt" Example.world3) _ H).
  - apply (proj1 (proj2 (proj2 (concatenate_subtitles_truncates Example.durations3
                    ["0005-1.srt"; "0005-2.srt"] Example.videos3 "0005.srt" Example.world3)))).
    intros _ p Hp. vm_compute in Hp. injection Hp as <-. exists 20%float. reflexivity.
Defined.

(** Claim C7 fails as it stands: with one subtitle part and two video
    parts the only paired video is probed, since a further video exists;
    when that probe fails the merge raises and writes nothing, while the
    merge of the two lists cut to one part each returns. *)
Lemma concatenate_subtitles_mismatch_raises :
  concatenate_subtitles Example.no_probe ["0005-1.srt"] ["0005-1.mp4"; "0005-2.mp4"]
    "0005.srt" Example.world3 = (Raise CalledProcessError, Example.world3) /\
  concatenate_subtitles Example.no_probe ["0005-1.srt"] ["0005-1.mp4"]
    "0005.srt" Example.world3 =
    (Ok tt,
     World (<["0005.srt" :=
               Example.block "1" "00:00:01,000 --> 00:00:02,000" "one" +:+ newline]>
              Example.files3)
           [check_mark +:+ " Created 0005.srt"]).
Proof.
  split.
  - reflexivity.
  - vm_compute. reflexivity.
Qed.

(** ** [main] *)

(** Claim C8.  When no media part matches the identifier, [main] prints the
    error message, ends with exit code 1, and leaves the files as they
    were: no list file, no merged video, no merged subtitles. *)
Theorem main_no_video_parts
    (get_video_duration : string -> result float)
    (find_video_parts find_subtitle_parts : string -> string -> list string)
    (run_ffmpeg : list string -> gmap string string -> result unit * gmap string string)
    (script video_number : string) (rest : list string) (w : world) :
  find_video_parts video_number (match rest with d :: _ => d | [] => "." end) = [] ->
  let outcome := main get_video_duration find_video_parts find_subtitle_parts run_ffmpeg
                      (script :: video_number :: rest) w in
  fst outcome = Raise (SystemExit 1) /\
  exit_code (fst outcome) = 1 /\
  files (snd outcome) = files w /\
  stdout (snd outcome) = stdout w ++ ["Error: No video parts found for " +:+ video_number].
Proof.
  intros Hnone outcome. subst outcome. unfold main. rewrite Hnone.
  repeat split.
Qed.

Lemma main_no_video_parts_witness :
  Example.no_parts "0005" "." = [] /\
  let outcome := main Example.durations3 Example.no_parts Example.no_parts Example.no_ffmpeg
                      ["video-merger.py"; "0005"] Example.world3 in
  fst outcome = Raise (SystemExit 1) /\
  exit_code (fst outcome) = 1 /\
  files (snd outcome) = Example.files3 /\
  stdout (snd outcome) = ["Error: No video parts found for 0005"].
Proof.
  split; [reflexivity|].
  exact (main_no_video_parts Example.durations3 Example.no_parts Example.no_parts
           Example.no_ffmpeg "video-merger.py" "0005" [] Example.world3 eq_refl).
Defined.

(** ** Further properties: [main] and [concatenate_videos] *)

(** X1.  With no argument after the script name, [main] prints the two
    usage lines, ends with exit code 1 and leaves the files alone. *)
Theorem main_without_argument
    (get_video_duration : string -> result float)
    (find_video_parts find_subtitle_parts : string -> string -> list string)
    (run_ffmpeg : list string -> gmap string string -> result unit * gmap string string)
    (argv : list string) (w : world) :
  (length argv < 2)%nat ->
  main get_video_duration find_video_parts find_subtitle_parts run_ffmpeg argv w =
    (Raise (SystemExit 1),
     World (files w)
           (stdout w ++ ["Usage: python script.py <video_number>";
                         "Example: python script.py 0005"])).
Proof.
  intros Hlen. destruct argv as [|script [|number rest]]; cbn [length] in Hlen; try lia;
    unfold main, io_bind, print, raise, lift; cbn [files stdout];
    rewrite <- app_assoc; reflexivity.
Qed.

Lemma main_without_argument_witness :
  (length ["video-merger.py"] < 2)%nat /\
  main Example.durations3 Example.no_parts Example.no_parts Example.no_ffmpeg
       ["video-merger.py"] Example.world3 =
    (Raise (SystemExit 1),
     World Example.files3 ["Usage: python script.py <video_number>";
                           "Example: python script.py 0005"]).
Proof.
  split; [simpl; lia|].
  apply (main_without_argument Example.durations3 Example.no_parts Example.no_parts
           Example.no_ffmpeg ["video-merger.py"] Example.world3).
  simpl. lia.
Defined.

Lemma concatenate_videos_unfold run_ffmpeg video_parts output_path w :
  concatenate_videos run_ffmpeg video_parts output_path w =
    let fs := <[list_file_name := manifest_text video_parts]> (files w) in
    match run_ffmpeg (ffmpeg_command output_path) fs with
    | (Raise e, fs') => (Raise e, World fs' (stdout w))
    | (Ok _, fs') =>
        match fs' !! list_file_name with
        | None => (Raise FileNotFoundError, World fs' (stdout w))
        | Some _ =>
            (Ok tt, World (delete list_file_name fs')
                          (stdout w ++ [check_mark +:+ " Created " +:+ output_path]))
        end
    end.
Proof.
  unfold concatenate_videos, io_bind, write_file, remove_file, print.
  cbn [files stdout]. fold list_file_name. fold (manifest_text video_parts).
  fold (ffmpeg_command output_path).
  destruct (run_ffmpeg _ _) as [[[]|e] fs']; [|reflexivity].
  cbn [files stdout]. destruct (fs' !! list_file_name); reflexivity.
Qed.

(** X2.  When ffmpeg fails, [concatenate_videos] raises its exception,
    prints nothing and cleans nothing up: the files are as ffmpeg left
    them, so that the list file stays behind unless ffmpeg itself took it
    away. *)
Theorem concatenate_videos_failure_leaves_list_file
    (run_ffmpeg : list string -> gmap string string -> result unit * gmap string string)
    (video_parts : list string) (output_path : string) (w : world) (e : exn)
    (fs' : gmap string string) :
  run_ffmpeg (ffmpeg_command output_path)
             (<[list_file_name := manifest_text video_parts]> (files w)) = (Raise e, fs') ->
  concatenate_videos run_ffmpeg video_parts output_path w = (Raise e, World fs' (stdout w)) /\
  (fs' !! list_file_name = Some (manifest_text video_parts) ->
   files (snd (concatenate_videos run_ffmpeg video_parts output_path w)) !! list_file_name =
     Some (manifest_text video_parts)).
Proof.
  intros Hrun. rewrite concatenate_videos_unfold. cbv zeta.
  rewrite Hrun. split; [reflexivity|]. intros Hlist. exact Hlist.
Qed.

Lemma concatenate_videos_failure_leaves_list_file_witness :
  Example.failing_ffmpeg (ffmpeg_command "0005.mp4")
    (<[list_file_name := manifest_text Example.videos3]> (files Example.world3)) =
    (Raise CalledProcessError,
     <["0005.mp4" := "mer"]>
       (<[list_file_name := manifest_text Example.videos3]> Example.files3)) /\
  concatenate_videos Example.failing_ffmpeg Example.videos3 "0005.mp4" Example.world3 =
    (Raise CalledProcessError,
     World (<["0005.mp4" := "mer"]>
              (<[list_file_name := manifest_text Example.videos3]> Example.files3)) []).
Proof.
  split; [reflexivity|].
  exact (proj1 (concatenate_videos_failure_leaves_list_file Example.failing_ffmpeg
                  Example.videos3 "0005.mp4" Example.world3 CalledProcessError _ eq_refl)).
Defined.

(** X3.  When ffmpeg succeeds and the list file is still there,
    [concatenate_videos] returns, reports the output, and the files are
    those that ffmpeg left, without the list file: a [concat_list.txt] that
    was there before the call is gone as well. *)
Theorem concatenate_videos_success_removes_list_file
    (run_ffmpeg : list string -> gmap string string -> result unit * gmap string string)
    (video_parts : list string) (output_path : string) (w : world)
    (fs' : gmap string string) :
  run_ffmpeg (ffmpeg_command output_path)
             (<[list_file_name := manifest_text video_parts]> (files w)) = (Ok tt, fs') ->
  is_Some (fs' !! list_file_name) ->
  concatenate_videos run_ffmpeg video_parts output_path w =
    (Ok tt, World (delete list_file_name fs')
                  (stdout w ++ [check_mark +:+ " Created " +:+ output_path])) /\
  delete list_file_name fs' !! list_file_name = None.
Proof.
  intros Hrun [text Htext]. rewrite concatenate_videos_unfold. cbv zeta.
  rewrite Hrun, Htext. split; [reflexivity|apply lookup_delete_eq].
Qed.

Lemma concatenate_videos_success_removes_list_file_witness :
  Example.merging_ffmpeg (ffmpeg_command "0005.mp4")
    (<[list_file_name := manifest_text Example.videos3]> (files Example.world3)) =
    (Ok tt, <["0005.mp4" := "merged"]>
              (<[list_file_name := manifest_text Example.videos3]> Example.files3)) /\
  concatenate_videos Example.merging_ffmpeg Example.videos3 "0005.mp4" Example.world3 =
    (Ok tt,
     World (delete list_file_name
              (<["0005.mp4" := "merged"]>
                 (<[list_file_name := manifest_text Example.videos3]> Example.files3)))
           [check_mark +:+ " Created 0005.mp4"]).
Proof.
  split; [reflexivity|].
  apply (concatenate_videos_success_removes_list_file Example.merging_ffmpeg Example.videos3
           "0005.mp4" Example.world3 _ eq_refl).
  eexists. vm_compute. reflexivity.
Defined.

Lemma print_all_spec msgs : forall w,
  print_all msgs w = (Ok tt, World (files w) (stdout w ++ msgs)).
Proof.
  induction msgs as [|msg msgs IH]; intros w; cbn [print_all].
  - unfold io_ret. rewrite app_nil_r. now destruct w.
  - unfold io_bind, print. rewrite IH. cbn [files stdout]. now rewrite <- app_assoc.
Qed.

(** X4.  With video parts and no subtitle parts, and an ffmpeg that
    succeeds, [main] returns with exit code 0; the files are those that
    ffmpeg left, without the list file, so that no subtitle file is written;
    the console shows the parts, the merge, the notice that the subtitles
    are skipped, and the closing line. *)
Theorem main_without_subtitles
    (get_video_duration : string -> result float)
    (find_video_parts find_subtitle_parts : string -> string -> list string)
    (run_ffmpeg : list string -> gmap string string -> result unit * gmap string string)
    (script video_number : string) (rest : list string) (w : world)
    (fs' : gmap string string) :
  let directory := directory_of rest in
  let video_parts := find_video_parts video_number directory in
  let output_video := path_join directory (video_number +:+ ".mp4") in
  video_parts <> [] ->
  find_subtitle_parts video_number directory = [] ->
  run_ffmpeg (ffmpeg_command output_video)
             (<[list_file_name := manifest_text video_parts]> (files w)) = (Ok tt, fs') ->
  is_Some (fs' !! list_file_name) ->
  let outcome := main get_video_duration find_video_parts find_subtitle_parts run_ffmpeg
                      (script :: video_number :: rest) w in
  fst outcome = Ok tt /\
  exit_code (fst outcome) = 0 /\
  files (snd outcome) = delete list_file_name fs' /\
  stdout (snd outcome) =
    stdout w ++ video_messages video_parts output_video ++
    [check_mark +:+ " Created " +:+ output_video;
     newline +:+ "No subtitle files found, skipping subtitle concatenation.";
     newline +:+ check_mark +:+ " Done!"].
Proof.
  intros directory video_parts output_video Hparts Hsubs Hrun Hlist outcome.
  assert (Hmain : outcome =
            (Ok tt,
             World (delete list_file_name fs')
                   (stdout w ++ video_messages video_parts output_video ++
                    [check_mark +:+ " Created " +:+ output_video;
                     newline +:+ "No subtitle files found, skipping subtitle concatenation.";
                     newline +:+ check_mark +:+ " Done!"]))).
  { subst outcome. unfold main. fold (directory_of rest). fold directory.
    fold video_parts. rewrite Hsubs.
    destruct video_parts as [|v vs] eqn:Hv; [congruence|]. rewrite <- Hv in *.
    fold output_video.
    unfold io_bind at 1. unfold print at 1. cbn [files stdout].
    unfold io_bind at 1. rewrite print_all_spec. cbn [files stdout].
    unfold io_bind at 1. unfold print at 1. cbn [files stdout].
    unfold io_bind at 1.
    rewrite concatenate_videos_unfold. cbv zeta. cbn [files stdout].
    rewrite Hrun. destruct Hlist as [text ->].
    unfold io_bind, print. cbn [files stdout].
    unfold video_messages. rewrite <- !app_assoc. reflexivity. }
  rewrite Hmain. repeat split.
Qed.

Lemma main_without_subtitles_witness :
  let outcome := main Example.durations3 Example.three_videos Example.no_parts
                      Example.merging_ffmpeg ["video-merger.py"; "0005"] Example.world3 in
  fst outcome = Ok tt /\
  exit_code (fst outcome) = 0 /\
  files (snd outcome) =
    delete list_file_name
      (<["./0005.mp4" := "merged"]>
         (<[list_file_name := manifest_text Example.videos3]> Example.files3)) /\
  stdout (snd outcome) =
    video_messages Example.videos3 "./0005.mp4" ++
    [check_mark +:+ " Created ./0005.mp4";
     newline +:+ "No subtitle files found, skipping subtitle concatenation.";
     newline +:+ check_mark +:+ " Done!"].
Proof.
  apply (main_without_subtitles Example.durations3 Example.three_videos Example.no_parts
           Example.merging_ffmpeg "video-merger.py" "0005" [] Example.world3
           (<["./0005.mp4" := "merged"]>
              (<[list_file_name := manifest_text Example.videos3]> Example.files3))).
  - discriminate.
  - reflexivity.
  - reflexivity.
  - eexists. vm_compute. reflexivity.
Defined.

(** ** Further properties: [concatenate_subtitles] *)

Lemma segments_loop_world get_video_duration pairs :
  forall n_videos i combined counter offset w,
    snd (segments_loop get_video_duration n_videos i pairs combined counter offset w) = w.
Proof.
  induction pairs as [|[srt video] pairs IH]; intros nv i combined counter offset w;
    [reflexivity|].
  rewrite segments_loop_cons.
  destruct (files w !! srt); [|reflexivity].
  destruct (if 0 <? i then _ else _); [|reflexivity]. cbv zeta.
  destruct (if i <? nv - 1 then _ else _); [apply IH|reflexivity].
Qed.

(** X5.  [concatenate_subtitles] writes at the end only: when it raises,
    files and console are as before the call; when it returns, the output
    file alone is written, its text ends with a line end, and one line is
    printed. *)
Theorem concatenate_subtitles_all_or_nothing
    (get_video_duration : string -> result float)
    (subtitle_parts video_parts : list string) (output_path : string) (w : world) :
  let outcome := concatenate_subtitles get_video_duration subtitle_parts video_parts
                   output_path w in
  match fst outcome with
  | Raise _ => snd outcome = w
  | Ok _ =>
      exists text,
        snd outcome =
          World (<[output_path := text +:+ newline]> (files w))
                (stdout w ++ [check_mark +:+ " Created " +:+ output_path])
  end.
Proof.
  intros outcome. subst outcome. unfold concatenate_subtitles, io_bind, write_file, print.
  pose proof (segments_loop_world get_video_duration (combine subtitle_parts video_parts)
                (Z.of_nat (length video_parts)) 0 [] 1 (PyInt 0) w) as Hw.
  destruct (segments_loop _ _ _ _ _ _ _ w) as [[combined|e] w1]; cbn [snd] in Hw; subst w1;
    cbn [fst snd files stdout]; [eexists|]; reflexivity.
Qed.

Lemma segments_loop_missing_file get_video_duration pairs :
  forall n_videos i combined counter offset w,
    Exists (fun p => files w !! fst p = None) pairs ->
    exists e, segments_loop get_video_duration n_videos i pairs combined counter offset w
              = (Raise e, w).
Proof.
  induction pairs as [|[srt video] pairs IH]; intros nv i combined counter offset w Hex;
    [inversion Hex|].
  rewrite segments_loop_cons.
  destruct (files w !! srt) as [content|] eqn:Hread; [|eauto].
  destruct (if 0 <? i then _ else _); [|eauto]. cbv zeta.
  destruct (if i <? nv - 1 then _ else _); [|eauto].
  apply IH. inversion Hex as [? ? Hhere|? ? Hlater]; subst; [|exact Hlater].
  cbn [fst] in Hhere. congruence.
Qed.

(** X6.  When the subtitle file of some pair does not exist,
    [concatenate_subtitles] raises and writes nothing. *)
Theorem concatenate_subtitles_missing_file
    (get_video_duration : string -> result float)
    (subtitle_parts video_parts : list string) (output_path : string) (w : world) :
  Exists (fun p => files w !! fst p = None) (combine subtitle_parts video_parts) ->
  exists e,
    concatenate_subtitles get_video_duration subtitle_parts video_parts output_path w =
      (Raise e, w).
Proof.
  intros Hex. unfold concatenate_subtitles, io_bind at 1.
  destruct (segments_loop_missing_file get_video_duration _
              (Z.of_nat (length video_parts)) 0 [] 1 (PyInt 0) w Hex) as [e ->].
  eauto.
Qed.

Lemma concatenate_subtitles_missing_file_witness :
  Exists (fun p => files Example.world3 !! fst p = None)
         (combine ["0005-1.srt"; "0005-9.srt"] Example.videos3) /\
  exists e,
    concatenate_subtitles Example.durations3 ["0005-1.srt"; "0005-9.srt"] Example.videos3
      "0005.srt" Example.world3 = (Raise e, Example.world3).
Proof.
  assert (H : Exists (fun p => files Example.world3 !! fst p = None)
                     (combine ["0005-1.srt"; "0005-9.srt"] Example.videos3)).
  { right. left. vm_compute. reflexivity. }
  split; [exact H|].
  exact (concatenate_subtitles_missing_file Example.durations3 ["0005-1.srt"; "0005-9.srt"]
           Example.videos3 "0005.srt" Example.world3 H).
Defined.

Lemma segments_loop_probe_ext g1 g2 pairs :
  forall n_videos i combined counter offset w,
    (forall k p, pairs !! k = Some p -> i + Z.of_nat k < n_videos - 1 -> g1 (snd p) = g2 (snd p)) ->
    segments_loop g1 n_videos i pairs combined counter offset w =
    segments_loop g2 n_videos i pairs combined counter offset w.
Proof.
  induction pairs as [|[srt video] pairs IH]; intros nv i combined counter offset w Hext;
    [reflexivity|].
  rewrite !segments_loop_cons.
  destruct (files w !! srt); [|reflexivity].
  destruct (if 0 <? i then _ else _); [|reflexivity]. cbv zeta.
  assert (Hlater : forall k p, pairs !! k = Some p -> i + 1 + Z.of_nat k < nv - 1 ->
                               g1 (snd p) = g2 (snd p)).
  { intros k p Hk Hlt. apply (Hext (S k) p Hk). lia. }
  destruct (i <? nv - 1) eqn:Hi.
  - apply Z.ltb_lt in Hi.
    assert (Hg : g1 video = g2 video) by (apply (Hext 0%nat (srt, video) eq_refl); cbn; lia).
    rewrite Hg. destruct (g2 video) as [d|]; [|reflexivity]. cbn [result_bind].
    destruct (PyNum.add offset (PyFloat d)); [|reflexivity]. now apply IH.
  - now apply IH.
Qed.

Lemma combine_lookup_snd {A B} (l : list A) (k : list B) :
  forall n p, combine l k !! n = Some p -> k !! n = Some (snd p).
Proof.
  revert k. induction l as [|a l IH]; intros [|b k] n p; cbn; try discriminate.
  destruct n as [|n]; cbn; [intros [= <-]; reflexivity|apply IH].
Qed.

(** X7.  The duration of the last video is never asked for: two probes that
    agree on every video but the last of the list give the same merge. *)
Theorem concatenate_subtitles_ignores_last_duration
    (probe1 probe2 : string -> result float)
    (subtitle_parts video_parts : list string) (output_path : string) (w : world) :
  (forall k video, video_parts !! k = Some video -> (k + 1 < length video_parts)%nat ->
                   probe1 video = probe2 video) ->
  concatenate_subtitles probe1 subtitle_parts video_parts output_path w =
  concatenate_subtitles probe2 subtitle_parts video_parts output_path w.
Proof.
  intros Hext. unfold concatenate_subtitles, io_bind.
  rewrite (segments_loop_probe_ext probe1 probe2); [reflexivity|].
  intros k p Hk Hlt. apply (Hext k); [now apply (combine_lookup_snd subtitle_parts)|lia].
Qed.

(** X8.  With no subtitle part or no video part to pair, the merge writes
    a file that holds a single line end. *)
Theorem concatenate_subtitles_nothing_to_pair
    (get_video_duration : string -> result float)
    (subtitle_parts video_parts : list string) (output_path : string) (w : world) :
  subtitle_parts = [] \/ video_parts = [] ->
  concatenate_subtitles get_video_duration subtitle_parts video_parts output_path w =
    (Ok tt, World (<[output_path := newline]> (files w))
                  (stdout w ++ [check_mark +:+ " Created " +:+ output_path])).
Proof.
  intros Hempty.
  assert (Hpairs : combine subtitle_parts video_parts = []).
  { destruct Hempty as [-> | ->]; [reflexivity|]. now destruct subtitle_parts. }
  unfold concatenate_subtitles. rewrite Hpairs. reflexivity.
Qed.

Lemma concatenate_subtitles_nothing_to_pair_witness :
  (Example.subtitles3 = [] \/ @nil string = []) /\
  concatenate_subtitles Example.durations3 Example.subtitles3 [] "0005.srt" Example.world3 =
    (Ok tt, World (<["0005.srt" := newline]> Example.files3) [check_mark +:+ " Created 0005.srt"]).
Proof.
  split; [right; reflexivity|].
  apply (concatenate_subtitles_nothing_to_pair Example.durations3 Example.subtitles3 []
           "0005.srt" Example.world3).
  right. reflexivity.
Defined.

Lemma concatenate_subtitles_ignores_last_duration_witness :
  Example.durations3 "0005-3.mp4" <> Example.durations3_last_fails "0005-3.mp4" /\
  concatenate_subtitles Example.durations3 Example.subtitles3 Example.videos3 "0005.srt"
    Example.world3 =
  concatenate_subtitles Example.durations3_last_fails Example.subtitles3 Example.videos3
    "0005.srt" Example.world3.
Proof.
  split; [discriminate|].
  apply (concatenate_subtitles_ignores_last_duration Example.durations3
           Example.durations3_last_fails Example.subtitles3 Example.videos3 "0005.srt"
           Example.world3).
  intros k video Hk Hlt. simpl in Hlt.
  destruct k as [|[|k]]; [| |lia]; injection Hk as <-; reflexivity.
Defined.

(** ** Further properties: the timestamp functions *)

Lemma append_empty_r (s : string) : s +:+ EmptyString = s.
Proof.
  induction s as [|c s IH]; [reflexivity|].
  change (String c (s +:+ EmptyString) = String c s). now rewrite IH.
Qed.

(** X9.  What follows a stamp is not read: a stamp and the same stamp
    followed by any text that does not begin with a digit parse alike. *)
Theorem parse_srt_time_ignores_rest h m sec ms rest :
  digit_run h -> digit_run m -> digit_run sec -> digit_run ms ->
  starts_with_digit rest = false ->
  parse_srt_time (h +:+ ":" +:+ m +:+ ":" +:+ sec +:+ "," +:+ ms +:+ rest) =
  parse_srt_time (h +:+ ":" +:+ m +:+ ":" +:+ sec +:+ "," +:+ ms).
Proof.
  intros Hh Hm Hs Hms Hrest.
  rewrite parse_srt_time_ints by assumption. symmetry.
  replace (h +:+ ":" +:+ m +:+ ":" +:+ sec +:+ "," +:+ ms)
    with (h +:+ ":" +:+ m +:+ ":" +:+ sec +:+ "," +:+ ms +:+ EmptyString)
    by (now rewrite append_empty_r).
  now rewrite parse_srt_time_ints by (assumption || reflexivity).
Qed.

Lemma parse_srt_time_ignores_rest_witness :
  parse_srt_time "00:01:05,250 X1:100 X2:200" = parse_srt_time "00:01:05,250".
Proof.
  apply (parse_srt_time_ignores_rest "00" "01" "05" "250" " X1:100 X2:200");
    try reflexivity; split; try discriminate; reflexivity.
Defined.

(** X10.  The pattern is looked for at the head of the string only: a
    string that does not begin with a digit, such as a stamp after a space or
    a sign, parses to the [int] 0. *)
Theorem parse_srt_time_needs_leading_digit s :
  starts_with_digit s = false -> parse_srt_time s = Ok (PyInt 0).
Proof.
  intros Hs. apply parse_srt_time_no_match.
  intros (h & m & sec & ms & rest & -> & [Hne Hh] & _).
  destruct h as [|c h]; [congruence|].
  change (is_digit c = false) in Hs.
  change (is_digit c && all_chars is_digit h = true) in Hh.
  rewrite Hs in Hh. discriminate.
Qed.

Lemma parse_srt_time_needs_leading_digit_witness :
  starts_with_digit " 00:00:05,000" = false /\
  parse_srt_time " 00:00:05,000" = Ok (PyInt 0).
Proof.
  split; [reflexivity|].
  apply (parse_srt_time_needs_leading_digit " 00:00:05,000"). reflexivity.
Defined.

Lemma format_srt_time_int T :
  format_srt_time (PyInt T) =
    Ok (format_0d 2 (T / 3600) +:+ ":" +:+ format_0d 2 (T mod 3600 / 60) +:+ ":" +:+
        format_0d 2 (T mod 60) +:+ "," +:+ "000").
Proof.
  unfold format_srt_time. cbn [mod_one mul_int result_bind PyNum.int].
  rewrite Z.mod_1_r. reflexivity.
Qed.

Lemma to_uint_head_nonzero p : head_nonzero (Pos.to_uint p).
Proof.
  assert (Hnorm : Decimal.unorm (Pos.to_uint p) = Pos.to_uint p).
  { rewrite <- (DecimalPos.Unsigned.to_of (Pos.to_uint p)), DecimalPos.Unsigned.of_to.
    reflexivity. }
  pose proof (DecimalPos.Unsigned.to_uint_nonnil p) as Hnil.
  pose proof (DecimalPos.Unsigned.to_uint_nonzero p) as Hzero.
  destruct (Pos.to_uint p) as [|d|d|d|d|d|d|d|d|d|d]; try exact I; [congruence|].
  unfold Decimal.unorm in Hnorm. cbn [Decimal.nzhead] in Hnorm.
  pose proof (nb_digits_nzhead d) as Hlen.
  destruct (Decimal.nzhead d) eqn:Hd.
  - injection Hnorm as <-. now contradict Hzero.
  - rewrite Hnorm in Hlen. cbn [Decimal.nb_digits] in Hlen. lia.
  - discriminate. - discriminate. - discriminate. - discriminate. - discriminate.
  - discriminate. - discriminate. - discriminate. - discriminate.
Qed.

Lemma of_uint_head_nonzero d :
  head_nonzero d -> (10 ^ N.pred (Unsigned.usize d) <= Pos.of_uint d)%N.
Proof.
  destruct d; cbn [head_nonzero]; intros Hd; try contradiction;
    cbn [Unsigned.usize]; rewrite N.pred_succ;
    rewrite Unsigned.of_uint_alt; unfold Decimal.rev; cbn [Decimal.revapp];
    rewrite Unsigned.of_lu_revapp; cbn [Unsigned.of_lu];
    fold (Decimal.rev d); lia.
Qed.

Lemma string_of_uint_length d :
  N.of_nat (String.length (NilEmpty.string_of_uint d)) = Unsigned.usize d.
Proof.
  induction d; cbn [NilEmpty.string_of_uint String.length Unsigned.usize];
    [reflexivity|..]; rewrite Nat2N.inj_succ, IHd; reflexivity.
Qed.

(** A number below [10 ^ k] is written with at most [k] digits. *)
Lemma str_length_le z k :
  0 <= z < 10 ^ k -> 1 <= k -> Z.of_nat (String.length (str z)) <= k.
Proof.
  intros Hz Hk. unfold str. destruct z as [|p|p]; [simpl; lia| |lia].
  cbn [Z.to_int NilZero.string_of_int]. unfold NilZero.string_of_uint.
  pose proof (to_uint_head_nonzero p) as Hhead.
  pose proof (of_uint_head_nonzero _ Hhead) as Hge.
  rewrite DecimalPos.Unsigned.of_to in Hge.
  pose proof (string_of_uint_length (Pos.to_uint p)) as Hlen.
  destruct (Pos.to_uint p) as [|d|d|d|d|d|d|d|d|d|d] eqn:Hp; try contradiction;
    rewrite <- Hp in *; clear Hp.
  all: assert (Hlt : (N.pred (Unsigned.usize (Pos.to_uint p)) < Z.to_N k)%N);
    [apply (N.pow_lt_mono_r_iff 10); [lia|];
     eapply N.le_lt_trans; [exact Hge|];
     apply N2Z.inj_lt; rewrite N2Z.inj_pow, Z2N.id by lia; simpl; lia
    |lia].
Qed.

Lemma format_0d_within_limit w z :
  0 <= z < two53 -> (w <= 16)%nat -> within_int_limit (format_0d w z).
Proof.
  intros Hz Hw. unfold within_int_limit, int_max_str_digits, format_0d.
  destruct (z <? 0) eqn:E; [lia|]. change (EmptyString +:+ ?x) with x.
  rewrite length_append_str, length_zeros.
  assert (Hlen : Z.of_nat (String.length (str (Z.abs z))) <= 16).
  { apply str_length_le; [|lia]. rewrite Z.abs_eq by lia.
    assert (two53 < 10 ^ 16) by reflexivity. lia. }
  simpl String.length. lia.
Qed.

(** X11.  Whole seconds go through the round trip: for an [int] [T] from 0
    to below 2^53, [format_srt_time] returns a stamp that ends in [,000], and
    [parse_srt_time] of that stamp is the float of [T] (plus the float
    0.0 of the milliseconds). *)
Theorem format_parse_whole_seconds T :
  0 <= T < two53 ->
  exists stamp,
    format_srt_time (PyInt T) = Ok (stamp +:+ ",000") /\
    parse_srt_time (stamp +:+ ",000") = Ok (PyFloat (float_of_small T + 0)).
Proof.
  intros HT.
  exists (format_0d 2 (T / 3600) +:+ ":" +:+ format_0d 2 (T mod 3600 / 60) +:+ ":" +:+
          format_0d 2 (T mod 60)).
  assert (H1 : 0 <= T / 3600) by (apply Z.div_pos; lia).
  assert (H2 : 0 <= T mod 3600 / 60).
  { pose proof (Z.mod_pos_bound T 3600 ltac:(lia)). apply Z.div_pos; lia. }
  assert (H3 : 0 <= T mod 60 < 60) by (apply Z.mod_pos_bound; lia).
  assert (Hshape :
    (format_0d 2 (T / 3600) +:+ ":" +:+ format_0d 2 (T mod 3600 / 60) +:+ ":" +:+
     format_0d 2 (T mod 60)) +:+ ",000" =
    format_0d 2 (T / 3600) +:+ ":" +:+ format_0d 2 (T mod 3600 / 60) +:+ ":" +:+
    format_0d 2 (T mod 60) +:+ "," +:+ "000" +:+ EmptyString).
  { rewrite <- !append_assoc_str. reflexivity. }
  split.
  - rewrite format_srt_time_int, Hshape. reflexivity.
  - rewrite Hshape.
    assert (Hdiv : T / 3600 < two53).
    { apply Z.div_lt_upper_bound; unfold two53 in *; lia. }
    assert (Hmin : T mod 3600 / 60 < two53).
    { pose proof (Z.mod_pos_bound T 3600 ltac:(lia)).
      apply Z.div_lt_upper_bound; unfold two53 in *; lia. }
    rewrite parse_srt_time_groups;
      try (apply format_0d_digit_run; lia); try reflexivity;
      try (apply format_0d_within_limit; unfold two53 in *; lia);
      [|split; [discriminate|reflexivity]|apply within_int_limit_short; simpl; lia].
    assert (Hw : whole_seconds (format_0d 2 (T / 3600)) (format_0d 2 (T mod 3600 / 60))
                               (format_0d 2 (T mod 60)) = T).
    { unfold whole_seconds. rewrite !decimal_value_format_0d by lia.
      pose proof (Z.div_mod T 3600 ltac:(lia)).
      pose proof (Z.div_mod (T mod 3600) 60 ltac:(lia)).
      pose proof (Z.mod_pos_bound (T mod 3600) 60 ltac:(lia)).
      assert (Hmm : (T mod 3600) mod 60 = T mod 60).
      { apply (Z.mod_unique T 60 (60 * (T / 3600) + T mod 3600 / 60)); [left|]; lia. }
      lia. }
    rewrite Hw. change (decimal_value "000") with 0.
    rewrite int_true_div_small by (unfold two53; simpl; lia).
    cbn [result_bind PyNum.add]. rewrite float_of_int_small by lia.
    reflexivity.
Qed.

Lemma format_parse_whole_seconds_witness :
  0 <= 3725 < two53 /\
  exists stamp,
    format_srt_time (PyInt 3725) = Ok (stamp +:+ ",000") /\
    parse_srt_time (stamp +:+ ",000") = Ok (PyFloat (float_of_small 3725 + 0)).
Proof.
  assert (H : 0 <= 3725 < two53) by (unfold two53; simpl; lia).
  split; [exact H|]. exact (format_parse_whole_seconds 3725 H).
Defined.

Lemma split_from_nonempty sep s : forall skip, split_from sep skip s <> [].
Proof.
  induction s as [|c s IH]; intros skip; cbn [split_from]; [discriminate|].
  destruct skip as [|k]; [|apply IH].
  destruct (String.prefix sep (String c s)); [discriminate|].
  destruct (split_from sep 0 s); discriminate.
Qed.

(** X12.  Every subtitle text gives at least one block, an empty one
    too: the renumbering of a text always appends to the merged blocks and
    moves the counter on, by the number of blocks of the text. *)
Theorem renumber_loop_counts content combined counter :
  let blocks := blocks_of content in
  (1 <= length blocks)%nat /\
  length (fst (renumber_loop blocks combined counter)) = (length combined + length blocks)%nat /\
  snd (renumber_loop blocks combined counter) = counter + Z.of_nat (length blocks) /\
  (strip content = EmptyString ->
   renumber_loop blocks combined counter = (combined ++ [str counter], counter + 1)).
Proof.
  intros blocks. rewrite renumber_loop_spec. cbn [fst snd].
  rewrite length_app, length_imap. repeat split.
  - subst blocks. unfold blocks_of, split.
    pose proof (split_from_nonempty blank_line (strip content) 0) as Hne.
    destruct (split_from blank_line 0 (strip content)); [congruence|simpl; lia].
  - intros Hempty. subst blocks. unfold blocks_of. rewrite Hempty.
    cbn. rewrite Z.add_0_r. reflexivity.
Qed.

Lemma renumber_loop_counts_witness :
  strip (" " +:+ newline +:+ " ") = EmptyString /\
  renumber_loop (blocks_of (" " +:+ newline +:+ " ")) ["1" +:+ newline +:+ "text"] 2 =
    (["1" +:+ newline +:+ "text"; "2"], 3).
Proof.
  assert (H : strip (" " +:+ newline +:+ " ") = EmptyString) by (vm_compute; reflexivity).
  split; [exact H|].
  exact (proj2 (proj2 (proj2 (renumber_loop_counts (" " +:+ newline +:+ " ")
                                ["1" +:+ newline +:+ "text"] 2))) H).
Defined.

(** X13.  A line that [offset_subtitle] rewrites comes out as two stamps
    around an arrow and nothing else: it is made of digits, signs, colons,
    commas, spaces and [>] only, so that any text after the end stamp of the
    input line is gone. *)
Theorem offset_subtitle_line_only_stamps offset line part0 part1 new_line :
  contains "-->" line = true ->
  split " --> " line = [part0; part1] ->
  offset_subtitle_line offset line = Ok new_line ->
  all_chars time_char new_line = true /\
  exists new_start new_end,
    new_line = new_start +:+ " --> " +:+ new_end /\
    (exists start shifted, parse_srt_time part0 = Ok start /\
       PyNum.add start offset = Ok shifted /\ format_srt_time shifted = Ok new_start) /\
    (exists end_ shifted, parse_srt_time part1 = Ok end_ /\
       PyNum.add end_ offset = Ok shifted /\ format_srt_time shifted = Ok new_end).
Proof.
  intros Hc Hs Hline. apply offset_subtitle_line_step in Hline.
  destruct Hline as [l [Hno | Hlen] | l p0 p1 a b a' b' s e Hc' Hs' Ha Hb Ha' Hfs Hb' Hfe].
  - congruence.
  - rewrite Hs in Hlen. now contradict Hlen.
  - rewrite Hs in Hs'. injection Hs' as <- <-. split.
    + rewrite !all_chars_app, (format_srt_time_chars _ _ Hfs), (format_srt_time_chars _ _ Hfe).
      reflexivity.
    + exists s, e. split; [reflexivity|]. split; eauto.
Qed.

Lemma offset_subtitle_line_only_stamps_witness :
  offset_subtitle_line (PyFloat 60) "00:00:05,000 --> 00:00:07,000 X1:40 Y1:20" =
    Ok "00:01:05,000 --> 00:01:07,000" /\
  all_chars time_char "00:01:05,000 --> 00:01:07,000" = true.
Proof.
  assert (H : offset_subtitle_line (PyFloat 60) "00:00:05,000 --> 00:00:07,000 X1:40 Y1:20" =
              Ok "00:01:05,000 --> 00:01:07,000") by (vm_compute; reflexivity).
  split; [exact H|].
  exact (proj1 (offset_subtitle_line_only_stamps (PyFloat 60)
                  "00:00:05,000 --> 00:00:07,000 X1:40 Y1:20"
                  "00:00:05,000" "00:00:07,000 X1:40 Y1:20" _ eq_refl eq_refl H)).
Defined.
